(** * Wells Fargo statement converter: the text-parsing pipeline of
      [PdfProcessor] (src/src/pdf_processor.cpp), embedded in Rocq.

    Strings are [string]; [size_t] values are integers in [0, 2^64) with
    the wrap-around of unsigned arithmetic written out; C++ exceptions are
    the [Throw] case of a small error monad. *)

From Stdlib Require Import ZArith QArith Qabs Strings.String Strings.Ascii List Bool Lia.
From Stdlib Require Import Sorting.Sorted.
From Equations Require Import Equations.
Import ListNotations.

Open Scope string_scope.
Open Scope Z_scope.

(** ** Exceptions *)

(** The exceptions that can leave the functions of this file: the two
    standard-library ones raised by [substr], [stoi] and [stod], and the
    repository's own [Exception] (exception_rk.cpp), which carries a
    message. *)
Inductive exn : Type :=
| out_of_range
| invalid_argument
| Exception (message : string).

Inductive result (A : Type) : Type :=
| Ok (a : A)
| Throw (e : exn).
Arguments Ok {A} a.
Arguments Throw {A} e.

Definition bind {A B : Type} (r : result A) (k : A -> result B) : result B :=
  match r with
  | Ok a => k a
  | Throw e => Throw e
  end.

Notation "x <- r ;; k" := (bind r (fun x => k))
  (at level 61, r at next level, right associativity).
Notation "' p <- r ;; k" := (bind r (fun x => let 'p := x in k))
  (at level 61, p pattern, r at next level, right associativity).

(** [Exception::what] returns the stored message. *)
Definition what (e : exn) : string :=
  match e with
  | Exception m => m
  | out_of_range => "out_of_range"
  | invalid_argument => "invalid_argument"
  end.

(** ** size_t *)

Module SizeT.
Definition bits : Z := 64.
Definition modulus : Z := 2 ^ bits.
(** [std::string::npos], the largest [size_t]. *)
Definition npos : Z := modulus - 1.
(** Reduction of an arithmetic result to [size_t]. *)
Definition wrap (z : Z) : Z := z mod modulus.
End SizeT.
Import SizeT.

(** ** The std::string operations the code calls *)

Module Str.

Definition size (s : string) : Z := Z.of_nat (String.length s).

Fixpoint mem (c : ascii) (chars : string) : bool :=
  match chars with
  | EmptyString => false
  | String d chars' => Ascii.eqb c d || mem c chars'
  end.

Definition of_index (o : option nat) : Z :=
  match o with
  | Some i => Z.of_nat i
  | None => npos
  end.

(** Position of the first character of [s] that is not in [chars]. *)
Fixpoint first_not_of (chars s : string) : option nat :=
  match s with
  | EmptyString => None
  | String c s' =>
      if mem c chars then option_map S (first_not_of chars s') else Some O
  end.

(** Position of the last character of [s] that is not in [chars]. *)
Fixpoint last_not_of (chars s : string) : option nat :=
  match s with
  | EmptyString => None
  | String c s' =>
      match last_not_of chars s' with
      | Some i => Some (S i)
      | None => if mem c chars then None else Some O
      end
  end.

(** Position of the last occurrence of the character [c] in [s]. *)
Fixpoint last_of (c : ascii) (s : string) : option nat :=
  match s with
  | EmptyString => None
  | String d s' =>
      match last_of c s' with
      | Some i => Some (S i)
      | None => if Ascii.eqb d c then Some O else None
      end
  end.

(** [s.find_first_not_of(chars)] *)
Definition find_first_not_of (s chars : string) : Z :=
  of_index (first_not_of chars s).

(** [s.find_last_not_of(chars)] *)
Definition find_last_not_of (s chars : string) : Z :=
  of_index (last_not_of chars s).

(** [s.rfind(c)] *)
Definition rfind (s : string) (c : ascii) : Z := of_index (last_of c s).

(** [s.find(pat, pos)]: the first occurrence of [pat] at or after [pos];
    [npos] when there is none, in particular when [pos > s.size()]. *)
Definition find (s pat : string) (pos : Z) : Z :=
  if pos >? size s then npos
  else of_index (String.index (Z.to_nat pos) pat s).

(** [s.substr(pos, n)]: throws [std::out_of_range] when [pos > s.size()],
    otherwise the at most [n] characters from [pos] on. *)
Definition substr (s : string) (pos n : Z) : result string :=
  if pos >? size s then Throw out_of_range
  else Ok (String.substring (Z.to_nat pos)
                            (Z.to_nat (Z.min n (size s - pos))) s).

(** [s.substr(pos)], the count defaulting to [npos]. *)
Definition substr_from (s : string) (pos : Z) : result string :=
  substr s pos npos.

(** [s.erase(std::remove(s.begin(), s.end(), c), s.end())] *)
Fixpoint remove (c : ascii) (s : string) : string :=
  match s with
  | EmptyString => EmptyString
  | String d s' => if Ascii.eqb d c then remove c s' else String d (remove c s')
  end.

End Str.

(** The whitespace set written in [trim] and [generateTransaction]:
    space, tab, newline, carriage return. *)
Definition TAB : ascii := ascii_of_nat 9.
Definition LF : ascii := ascii_of_nat 10.
Definition CR : ascii := ascii_of_nat 13.
Definition WS : string := String " " (String TAB (String LF (String CR EmptyString))).
Definition SPACE_TAB : string := String " " (String TAB EmptyString).

(** ** PdfProcessor::trim (pdf_processor.cpp, lines 19-28) *)

Definition trim (str : string) : result string :=
  let leading := Str.find_first_not_of str WS in
  result <- (if negb (leading =? 0) then Str.substr_from str leading
             else Ok str) ;;
  let end_ := Str.find_last_not_of str WS in
  if end_ =? npos then Ok "" else Str.substr result 0 (wrap (end_ + 1)).


(** ** std::stoi and std::stod *)

Module Num.

(** [isspace] in the C locale. *)
Definition isspace (c : ascii) : bool :=
  let n := nat_of_ascii c in
  (Nat.eqb n 32 || (Nat.leb 9 n && Nat.leb n 13))%bool.

Definition digit (c : ascii) : option Z :=
  let n := nat_of_ascii c in
  if (Nat.leb 48 n && Nat.leb n 57)%bool then Some (Z.of_nat n - 48) else None.

Fixpoint skip_space (s : string) : string :=
  match s with
  | String c s' => if isspace c then skip_space s' else s
  | EmptyString => s
  end.

(** An optional sign: whether it is a minus, and the rest. *)
Definition sign (s : string) : bool * string :=
  match s with
  | String "-" s' => (true, s')
  | String "+" s' => (false, s')
  | _ => (false, s)
  end.

(** The longest run of decimal digits at the front of [s]: how many there
    are, the number they spell after the digits already read ([acc]), and
    the rest of the string. *)
Fixpoint digits (s : string) (acc : Z) : nat * Z * string :=
  match s with
  | String c s' =>
      match digit c with
      | Some d => let '(n, v, r) := digits s' (10 * acc + d) in (S n, v, r)
      | None => (O, acc, s)
      end
  | EmptyString => (O, acc, s)
  end.

Definition INT_MIN : Z := - 2 ^ 31.
Definition INT_MAX : Z := 2 ^ 31 - 1.

(** [std::stoi(s)], base 10: leading white space, an optional sign, then
    digits; [std::invalid_argument] when there is no digit,
    [std::out_of_range] when the value does not fit an [int]; what follows
    the digits is ignored. *)
Definition stoi (s : string) : result Z :=
  let '(neg, s1) := sign (skip_space s) in
  let '(n, v, _) := digits s1 0 in
  match n with
  | O => Throw invalid_argument
  | S _ =>
      let v := if neg then - v else v in
      if ((INT_MIN <=? v) && (v <=? INT_MAX))%bool then Ok v
      else Throw out_of_range
  end.

(** The optional exponent part [e[+-]ddd] of a decimal floating literal;
    it is taken only when at least one digit follows. *)
Definition exponent (s : string) : Z :=
  match s with
  | String c s' =>
      if (Ascii.eqb c "e" || Ascii.eqb c "E")%bool then
        let '(neg, s1) := sign s' in
        let '(n, v, _) := digits s1 0 in
        match n with
        | O => 0
        | S _ => if neg then - v else v
        end
      else 0
  | EmptyString => 0
  end.

(** The rational [m * 10^e], in lowest terms. *)
Definition scale10 (m e : Z) : Q :=
  Qred (if 0 <=? e then inject_Z (m * 10 ^ e)
        else Qmake m (Z.to_pos (10 ^ (- e)))).

(** Largest finite and smallest normal [double]. *)
Definition DBL_MAX : Q := inject_Z ((2 ^ 53 - 1) * 2 ^ 971).
Definition DBL_MIN : Q := Qmake 1 (Z.to_pos (2 ^ 1022)).

(** [std::stod(s)] on decimal spellings: leading white space, an optional
    sign, digits with an optional fractional part, an optional exponent.
    The value is kept as the exact rational the text denotes (the
    [double] the program stores is that number rounded to nearest).
    [std::invalid_argument] when no digit can be read,
    [std::out_of_range] when the magnitude leaves the range of normal
    doubles. The hexadecimal, [inf] and [nan] spellings [strtod] also
    accepts do not occur in amounts and are not interpreted. *)
Definition stod (s : string) : result Q :=
  let '(neg, s1) := sign (skip_space s) in
  let '(ni, vi, s2) := digits s1 0 in
  let '(nf, vf, s3) :=
    match s2 with
    | String "." s2' => digits s2' vi
    | _ => (O, vi, s2)
    end in
  match (ni + nf)%nat with
  | O => Throw invalid_argument
  | S _ =>
      let m := if neg then - vf else vf in
      let q := scale10 m (exponent s3 - Z.of_nat nf) in
      if (Qeq_bool q 0 || (Qle_bool DBL_MIN (Qabs q) && Qle_bool (Qabs q) DBL_MAX))%bool
      then Ok q
      else Throw out_of_range
  end.

End Num.

(** ** Data model *)

(** Modelled from the spec: the [Date] class (its header is not among the
    sources) is "calendar date (year, month, day)"; [Date(year, month, day)]
    stores its three arguments. *)
Record Date : Type := mkDate { dateYear : Z; dateMonth : Z; dateDay : Z }.

(** Modelled from the spec: the [Transaction] class (its header is not among
    the sources) holds the five fields its setters fill in [generateTransaction]:
    date, reference number ("may be empty for interest-charge entries"),
    amount, name and last four. *)
Record Transaction : Type := mkTransaction {
  date : Date;
  referenceNumber : string;
  amount : Q;
  name : string;
  lastFourDigits : string
}.

(** [new Transaction()]: nothing set yet. *)
Definition Transaction_new : Transaction :=
  mkTransaction (mkDate 0 0 0) "" 0%Q "" "".

Definition setLastFour (t : Transaction) (v : string) : Transaction :=
  mkTransaction (date t) (referenceNumber t) (amount t) (name t) v.
Definition setDate (t : Transaction) (v : Date) : Transaction :=
  mkTransaction v (referenceNumber t) (amount t) (name t) (lastFourDigits t).
Definition setRefNum (t : Transaction) (v : string) : Transaction :=
  mkTransaction (date t) v (amount t) (name t) (lastFourDigits t).
Definition setAmount (t : Transaction) (v : Q) : Transaction :=
  mkTransaction (date t) (referenceNumber t) v (name t) (lastFourDigits t).
Definition setName (t : Transaction) (v : string) : Transaction :=
  mkTransaction (date t) (referenceNumber t) (amount t) v (lastFourDigits t).

(** The namespace [constants] (constants.h is not among the sources): the
    width of a reference number and the regular expressions, each taken as
    the test the code applies with it ([std::regex_match] on the whole line
    for [pdfFilePattern], [transactionPattern], [transactionPatternInterest]
    and [transactionPatternOld]; [std::regex_search] for the others). *)
Record Constants : Type := mkConstants {
  REF_NUM_SIZE : Z;
  pdfFilePattern : string -> bool;
  lastFourPattern : string -> bool;
  transactionTitlePattern : string -> bool;
  transactionPattern : string -> bool;
  transactionPatternInterest : string -> bool;
  transactionPatternOld : string -> bool;
  transactionSkip : string -> bool;
  transactionPatternSkippedRelevant : string -> bool
}.

(** ** PdfProcessor::generateTransaction (pdf_processor.cpp, lines 226-286) *)

Section GenerateTransaction.

Variable C : Constants.

(** The reference-number step, lines 258-265: the record and the rest of
    the line. *)
Definition readRefNum (t : Transaction) (line : string)
  : result (Transaction * string) :=
  let refNumIdx := Str.find_first_not_of line " " in
  refNum <- Str.substr line refNumIdx (wrap (REF_NUM_SIZE C)) ;;
  line' <- Str.substr_from line (wrap (refNumIdx + REF_NUM_SIZE C)) ;;
  Ok (setRefNum t refNum, line').

(** Lines 236-239: a new-format line loses its leading last-four token. *)
Definition stripLastFour (line : string) (isOldFormat isInterestCharge : bool)
  : result string :=
  if (negb isOldFormat && negb isInterestCharge)%bool then
    let lastFourIdx := Str.find_first_not_of line SPACE_TAB in
    Str.substr_from line (wrap (lastFourIdx + 4))
  else Ok line.

Definition generateTransaction (transaction : option Transaction)
    (line : string) (year : Z) (isJanuaryStatement : bool)
    (lastFour : string) (isOldFormat isInterestCharge : bool)
  : result Transaction :=
  match transaction with
  | None => Throw (Exception "Null transaction address passed to generateTransaction")
  | Some t =>
      (* Last four of account number *)
      let t := setLastFour t lastFour in
      line <- stripLastFour line isOldFormat isInterestCharge ;;
      (* Date *)
      let dateIdx := Str.find line "/" 0 in
      monthStr <- Str.substr line (wrap (dateIdx - 2)) 2 ;;
      month <- Num.stoi monthStr ;;
      dayStr <- Str.substr line (wrap (dateIdx + 1)) 2 ;;
      day <- Num.stoi dayStr ;;
      let isDecemberTransaction := month =? 12 in
      let year := if (isJanuaryStatement && isDecemberTransaction)%bool
                  then year - 1 else year in
      let t := setDate t (mkDate year month day) in
      line <- Str.substr_from line
                (wrap (Str.find line "/" (wrap (dateIdx + 1)) + 3)) ;;
      (* Reference number *)
      '(t, line) <- (if negb isInterestCharge then readRefNum t line
                     else Ok (t, line)) ;;
      (* Amount (currency) *)
      line <- trim line ;;
      let amountIdx := wrap (Str.rfind line " " + 1) in
      amountStr <- Str.substr_from line amountIdx ;;
      let amountStr := Str.remove "," amountStr in
      amount <- Num.stod amountStr ;;
      let t := setAmount t amount in
      line <- Str.substr line 0 (wrap (amountIdx - 1)) ;;
      (* Name of transaction *)
      let nameEndIdx := Str.find_last_not_of line WS in
      name <- Str.substr line 0 (wrap (nameEndIdx + 1)) ;;
      Ok (setName t name)
  end.

End GenerateTransaction.

(** ** Output streams *)

(** A [std::ofstream]: [good] says that neither failbit nor badbit is set
    (it is what [!stream] tests), [isOpen] that a file is attached to the
    stream, [written] is what has been written to the file. *)
Record ofstream : Type := { good : bool; isOpen : bool; written : string }.

(** The stream as the constructor leaves it on a file that holds [content]:
    usable and open when the file could be opened, failed and without a file
    when it could not. *)
Definition mkOfstream (opened : bool) (content : string) : ofstream :=
  {| good := opened; isOpen := opened; written := content |}.

(** [stream << s]. On a stream that has failed nothing happens. On a usable
    stream the characters go to the file when one is attached; when none is
    (after [close]) they are lost and, unless there was nothing to write, the
    stream gets badbit. *)
Definition put (f : ofstream) (s : string) : ofstream :=
  if good f then
    if isOpen f then {| good := true; isOpen := true; written := written f ++ s |}
    else if (s =? "")%string then f
    else {| good := false; isOpen := false; written := written f |}
  else f.

(** [stream.close()]: the file is detached and the state bits stay as they
    are; closing a stream that has no file sets failbit. *)
Definition close (f : ofstream) : ofstream :=
  {| good := good f && isOpen f; isOpen := false; written := written f |}.

(** ** PdfProcessor::processPdfs (pdf_processor.cpp, lines 80-209) *)

(** The members [processPdfs] works on, with the locals of its per-file
    loop (lines 113-115). *)
Record State : Type := mkState {
  transactions : list Transaction;
  skippedLines : ofstream;
  transactionTitleCount : Z;
  lastFourFound : bool;
  lastFour : string
}.

Definition pushTransaction (st : State) (t : Transaction) : State :=
  mkState (transactions st ++ [t]) (skippedLines st)
          (transactionTitleCount st) (lastFourFound st) (lastFour st).

Definition writeSkippedLine (st : State) (s : string) : State :=
  mkState (transactions st) (put (put (skippedLines st) s) (String LF ""))
          (transactionTitleCount st) (lastFourFound st) (lastFour st).

Definition foundLastFour (st : State) (v : string) : State :=
  mkState (transactions st) (skippedLines st) (transactionTitleCount st) true v.

Definition countTitle (st : State) : State :=
  mkState (transactions st) (skippedLines st)
          (wrap (transactionTitleCount st + 1)) (lastFourFound st) (lastFour st).

(** The state at the start of a file: lines 113-115. *)
Definition startFile (txs : list Transaction) (log : ofstream) : State :=
  mkState txs log 0 false "".

(** Lines 94-99: month, day and year text taken from the path of the
    file. *)
Definition statementDate (file : string) : result (string * string * string) :=
  let slashIndex := Str.find file "\" 0 in
  month <- Str.substr file (wrap (slashIndex + 1)) 2 ;;
  day <- Str.substr file (wrap (slashIndex + 3)) 2 ;;
  yy <- Str.substr file (wrap (slashIndex + 5)) 2 ;;
  Ok (month, day, "20" ++ yy).

(** The lines [std::getline] delivers from the text of a page. *)
Fixpoint getlines (cur text : string) : list string :=
  match text with
  | EmptyString => if (cur =? "")%string then [] else [cur]
  | String c text' =>
      if Ascii.eqb c LF then cur :: getlines "" text'
      else getlines (cur ++ String c "") text'
  end.

Section ProcessPdfs.

Variable C : Constants.

(** The external collaborator: [poppler::document::load_from_file], then
    [create_page(i)] and [text().to_utf8()] for each page. [None] is a
    null pointer. *)
Variable poppler : string -> option (list (option string)).

(** The branch that saves a transaction: lines 160-163, 173-176, 186-189. *)
Definition saveTransaction (year : string) (isJanuaryStatement : bool)
    (st : State) (line : string) (isOldFormat isInterestCharge : bool)
  : result State :=
  y <- Num.stoi year ;;
  t <- generateTransaction C (Some Transaction_new) line y isJanuaryStatement
         (lastFour st) isOldFormat isInterestCharge ;;
  Ok (pushTransaction st t).

(** The branch that logs a line: lines 166-167, 179-180, 192-193, 198-199. *)
Definition skipLine (st : State) (line : string) : result State :=
  s <- trim line ;;
  Ok (writeSkippedLine st s).

(** The body of the [while (std::getline(text, line))] loop, lines 131-201. *)
Definition processLine (year : string) (isJanuaryStatement : bool)
    (st : State) (line : string) : result State :=
  if (negb (lastFourFound st) && lastFourPattern C line)%bool then
    v <- Str.substr line (wrap (Str.rfind line " " + 1)) 4 ;;
    Ok (foundLastFour st v)
  else if transactionTitleCount st <? 1 then
    Ok (if transactionTitlePattern C line then countTitle st else st)
  else if transactionPattern C line then
    if negb (transactionSkip C line)
    then saveTransaction year isJanuaryStatement st line false false
    else skipLine st line
  else if transactionPatternInterest C line then
    if negb (transactionSkip C line)
    then saveTransaction year isJanuaryStatement st line false true
    else skipLine st line
  else if transactionPatternOld C line then
    if negb (transactionSkip C line)
    then saveTransaction year isJanuaryStatement st line true false
    else skipLine st line
  else if transactionPatternSkippedRelevant C line then skipLine st line
  else Ok st.

(** The lines of one page, in order. *)
Fixpoint processLines (year : string) (isJanuaryStatement : bool)
    (st : State) (lines : list string) : result State :=
  match lines with
  | [] => Ok st
  | line :: rest =>
      st' <- processLine year isJanuaryStatement st line ;;
      processLines year isJanuaryStatement st' rest
  end.

(** The pages of one document, lines 118-206. *)
Fixpoint processPages (year : string) (isJanuaryStatement : bool)
    (st : State) (pages : list (option string)) : result State :=
  match pages with
  | [] => Ok st
  | None :: _ => Throw (Exception "Could not load page with poppler")
  | Some text :: rest =>
      st' <- processLines year isJanuaryStatement st (getlines "" text) ;;
      processPages year isJanuaryStatement st' rest
  end.




End ProcessPdfs.

(** ** PdfProcessor::gatherPdfFiles (pdf_processor.cpp, lines 35-72) *)

Section GatherPdfFiles.

Variable C : Constants.

(** A directory entry as the iterator gives it: [entry.path().string()]
    and [entry.path().filename().string()]. *)
Record entry : Type := mkEntry { entryPath : string; entryFileName : string }.

Definition gatherEntry (acc : list string * ofstream) (e : entry)
  : list string * ofstream :=
  let '(pdfFiles, skippedFiles) := acc in
  if pdfFilePattern C (entryFileName e)
  then ((pdfFiles ++ [entryPath e])%list, skippedFiles)
  else (pdfFiles, put (put skippedFiles (entryFileName e)) (String LF "")).

Definition gatherPdfFiles (pathExists : bool) (path skippedFilePath : string)
    (directory : list entry) (pdfFiles : list string) (skippedFiles : ofstream)
  : result (list string * ofstream) :=
  if negb pathExists then Throw (Exception (path ++ " doesn't exist"))
  else if negb (good skippedFiles)
  then Throw (Exception ("Could not open " ++ skippedFilePath))
  else
    let skippedFiles := put skippedFiles ("-- SKIPPED FILES --" ++ String LF "") in
    let '(pdfFiles, skippedFiles) :=
      fold_left gatherEntry directory (pdfFiles, skippedFiles) in
    Ok (pdfFiles, close (put skippedFiles (String LF ""))).

End GatherPdfFiles.

(** ** PdfProcessor::generateCsvFile (pdf_processor.cpp, lines 301-322) *)

Section GenerateCsvFile.

(** [Transaction::getCsvFormat], declared in a header that is not among
    the sources. *)
Variable getCsvFormat : Transaction -> string.

(** The loop of lines 317-319 on a stream. *)
Definition writeTransactions (csvFile : ofstream) (txs : list Transaction)
  : ofstream :=
  fold_left (fun f t => put (put f (getCsvFormat t)) (String LF "")) txs csvFile.

(** [csvFile] is the stream as the constructor of line 304 leaves it
    (empty, usable or not); the result is the content of the file when it
    is closed. *)
Definition generateCsvFile (fileName : string) (csvFile : ofstream)
    (txs : list Transaction) : result string :=
  if negb (good csvFile) then Throw (Exception ("Couldn't open " ++ fileName))
  else if Z.of_nat (List.length txs) =? 0
  then Ok (written (close (put csvFile "None")))
  else Ok (written (close (writeTransactions csvFile txs))).

End GenerateCsvFile.

(** ** PdfProcessor::sortTransactions (pdf_processor.cpp, lines 291-295) *)

Definition date_ltb (a b : Date) : bool :=
  (dateYear a <? dateYear b)
  || ((dateYear a =? dateYear b)
      && ((dateMonth a <? dateMonth b)
          || ((dateMonth a =? dateMonth b) && (dateDay a <? dateDay b)))).

Definition before (pivot x : Transaction) : bool := date_ltb (date x) (date pivot).
Definition notBefore (pivot x : Transaction) : bool := negb (before pivot x).

(** Modelled from the spec: [QuickSort::quickSort] (quick_sort.h is not among
    the sources) is a "deterministic comparison sort (quicksort) over the
    full transaction collection", with the order the spec names: "ascending
    by date, with original discovery order as tie-break for equal dates".
    The first element is the pivot; the records dated before it go to its
    left and the others stay, in their order, to its right. *)
Equations? quickSort (l : list Transaction) : list Transaction
  by wf (List.length l) lt :=
  quickSort [] := [];
  quickSort (pivot :: rest) :=
    (quickSort (filter (before pivot) rest)
       ++ pivot :: quickSort (filter (notBefore pivot) rest))%list.
Proof.
  all: simpl; apply Nat.lt_succ_r, filter_length_le.
Qed.

(** The call of line 293 passes the bounds [0] and [size() - 1]: the whole
    collection. *)
Definition sortTransactions (txs : list Transaction) : list Transaction :=
  quickSort txs.

(** The order the sort establishes. *)
Definition date_le (a b : Transaction) : Prop := date_ltb (date b) (date a) = false.

(** ** A constants table for concrete runs *)

(** constants.h is not among the sources, so the theorems below hold for
    every table [C : Constants]. To run the model on concrete statements a
    table is needed all the same; this one has a reference number of nine
    characters and simple stand-ins for the regular expressions. *)
Module Sample.

Definition contains (pat s : string) : bool :=
  match String.index 0 pat s with
  | Some _ => true
  | None => false
  end.

Definition isDigit (c : ascii) : bool :=
  match Num.digit c with
  | Some _ => true
  | None => false
  end.

(** [s] starts with the shape [dd/dd]. *)
Definition startsWithDate (s : string) : bool :=
  match s with
  | String a (String b (String "/" (String c (String d _)))) =>
      isDigit a && isDigit b && isDigit c && isDigit d
  | _ => false
  end.

(** Four digits, a blank, and a date further on. *)
Definition newShape (s : string) : bool :=
  match s with
  | String a (String b (String c (String d (String " " s')))) =>
      isDigit a && isDigit b && isDigit c && isDigit d
      && startsWithDate (Num.skip_space s')
  | _ => false
  end.

Definition interestShape (s : string) : bool :=
  startsWithDate s && contains "INTEREST CHARGE" s.

Definition constants : Constants :=
  {| REF_NUM_SIZE := 9;
     pdfFilePattern := contains ".pdf";
     lastFourPattern := contains "Ending in";
     transactionTitlePattern := contains "Transactions";
     transactionPattern := newShape;
     transactionPatternInterest := interestShape;
     transactionPatternOld := startsWithDate;
     transactionSkip := contains "PAYMENT";
     transactionPatternSkippedRelevant := contains "/" |}.

Definition titleLine : string := "Transactions".
Definition lastFourLine : string := "Account Number Ending in 1234".
Definition purchaseLine : string :=
  "1234   01/15  01/16  REF001234   STORE PURCHASE          45.67".
Definition paymentLine : string :=
  "1234   01/20  01/21  REF001299   ONLINE PAYMENT          -45.67".

End Sample.

(** ** Vocabulary of the statements below *)

(** The month the date step reads from a line: lines 236-244. *)
Definition parsedMonth (line : string) (isOldFormat isInterestCharge : bool)
  : result Z :=
  line <- stripLastFour line isOldFormat isInterestCharge ;;
  monthStr <- Str.substr line (wrap (Str.find line "/" 0 - 2)) 2 ;;
  Num.stoi monthStr.

(** What is left of a line when the date has been removed: lines 236-255,
    without the conversions of month and day. *)
Definition afterDate (line : string) (isOldFormat isInterestCharge : bool)
  : result string :=
  line <- stripLastFour line isOldFormat isInterestCharge ;;
  let dateIdx := Str.find line "/" 0 in
  Str.substr_from line (wrap (Str.find line "/" (wrap (dateIdx + 1)) + 3)).

(** The example line of the specification: one date column. *)
Definition exampleLine : string :=
  "1234   01/15  REF001234   STORE PURCHASE          45.67".

(** The example line with the second date column (the post date) that the
    date step looks for. *)
Definition exampleLineTwoDates : string :=
  "1234   01/15  01/16  REF001234   STORE PURCHASE          45.67".

Definition exampleRecord : Transaction :=
  {| date := mkDate 2024 1 15;
     referenceNumber := "REF001234";
     amount := Qmake 4567 100;
     name := "STORE PURCHASE";
     lastFourDigits := "1234" |}.

(** A line has one of the three transaction shapes. *)
Definition transactionShaped (C : Constants) (line : string) : bool :=
  transactionPattern C line || transactionPatternInterest C line
  || transactionPatternOld C line.

(** The scan of a statement went from [st] to [st']: the records added are
    first some that carry the last four of [st], then some that carry the
    last four of [st']; a last four that was found stays; one that is still
    not found is still the old value. *)
Definition carries (st st' : State) : Prop :=
  exists early late,
    transactions st' = (transactions st ++ early ++ late)%list /\
    Forall (fun t => lastFourDigits t = lastFour st) early /\
    Forall (fun t => lastFourDigits t = lastFour st') late /\
    (lastFourFound st = true ->
     lastFourFound st' = true /\ lastFour st' = lastFour st) /\
    (lastFourFound st' = false -> lastFour st' = lastFour st).

(** The text of a page whose lines are [lines]. *)
Definition pageOf (lines : list string) : string :=
  String.concat (String LF "") lines.

(** One line per transaction: the text of each, ended by a newline. *)
Fixpoint csvLines (getCsvFormat : Transaction -> string)
    (txs : list Transaction) : string :=
  match txs with
  | [] => ""
  | t :: rest => getCsvFormat t ++ String LF "" ++ csvLines getCsvFormat rest
  end.

(** Every character of [s] is in [chars]. *)
Definition allIn (chars s : string) : Prop := Str.first_not_of chars s = None.

(** [s] is not empty and neither its first nor its last character is in
    [chars]. *)
Definition edgesNotIn (chars s : string) : Prop :=
  Str.first_not_of chars s = Some 0%nat /\
  Str.last_not_of chars s = Some (pred (String.length s)).

(** The exceptions of the standard library, as opposed to the repository's
    own [Exception]. *)
Definition isStdException (e : exn) : Prop :=
  e = out_of_range \/ e = invalid_argument.

(** A line without a newline in it. *)
Definition oneLine (line : string) : Prop := Str.mem LF line = false.

(** The names of the directory entries that do not match the PDF pattern,
    one per line. *)
Fixpoint skippedNames (C : Constants) (directory : list entry) : string :=
  match directory with
  | [] => ""
  | e :: rest =>
      if pdfFilePattern C (entryFileName e) then skippedNames C rest
      else entryFileName e ++ String LF "" ++ skippedNames C rest
  end.


(** * Properties *)

(** ** The error monad *)

Lemma bind_ok {A B : Type} (r : result A) (k : A -> result B) (b : B) :
  bind r k = Ok b -> exists a, r = Ok a /\ k a = Ok b.
Proof.
  destruct r as [a | e]; simpl; intros H; [eauto | discriminate].
Qed.

Lemma bind_throw {A B : Type} (r : result A) (k : A -> result B) (e : exn) :
  r = Throw e -> bind r k = Throw e.
Proof. intros ->. reflexivity. Qed.

(** Peel the first step off a hypothesis [bind r k = Ok b]. *)
Ltac bind_inv H :=
  let a := fresh "a" in
  let Ha := fresh "Hstep" in
  apply bind_ok in H; destruct H as (a & Ha & H).

(** ** Facts about the string operations *)

Lemma substr_ok (s : string) (pos n : Z) (s' : string) :
  Str.substr s pos n = Ok s' ->
  pos <= Str.size s /\
  s' = String.substring (Z.to_nat pos) (Z.to_nat (Z.min n (Str.size s - pos))) s.
Proof.
  unfold Str.substr. destruct (pos >? Str.size s) eqn:E; [discriminate |].
  intros [= <-]. split; [lia | reflexivity].
Qed.

Lemma substr_past_end (s : string) (pos n : Z) :
  Str.size s < pos -> Str.substr s pos n = Throw out_of_range.
Proof.
  intros H. unfold Str.substr.
  destruct (pos >? Str.size s) eqn:E; [reflexivity | lia].
Qed.

Lemma substr_throws (s : string) (pos n : Z) (e : exn) :
  Str.substr s pos n = Throw e -> e = out_of_range.
Proof.
  unfold Str.substr. destruct (pos >? Str.size s); congruence.
Qed.

Lemma substr_front (s : string) (n : Z) :
  exists s', Str.substr s 0 n = Ok s'.
Proof.
  unfold Str.substr, Str.size.
  pose proof (Zle_0_nat (String.length s)) as Hlen.
  destruct (0 >? Z.of_nat (String.length s)) eqn:E; [exfalso; lia | eauto].
Qed.

Lemma mem_substring (c : ascii) (s : string) (n m : nat) :
  Str.mem c (String.substring n m s) = true -> Str.mem c s = true.
Proof.
  revert n m. induction s as [| d s IH]; intros n m.
  - destruct n, m; simpl; auto.
  - destruct n as [| n].
    + destruct m as [| m]; simpl; [discriminate |].
      intros H. apply orb_true_iff in H. apply orb_true_iff.
      destruct H as [H | H]; [left; exact H | right; eapply IH; exact H].
    + simpl. intros H. apply orb_true_iff. right. eapply IH; exact H.
Qed.

Lemma substr_no_char (c : ascii) (s s' : string) (pos n : Z) :
  Str.mem c s = false -> Str.substr s pos n = Ok s' -> Str.mem c s' = false.
Proof.
  intros Hs H. apply substr_ok in H as [_ ->].
  destruct (Str.mem c (String.substring _ _ s)) eqn:E; [| reflexivity].
  apply mem_substring in E. congruence.
Qed.

Lemma index_no_char (c : ascii) (s : string) (n : nat) :
  Str.mem c s = false -> String.index n (String c "") s = None.
Proof.
  revert n. induction s as [| d s IH]; intros n H.
  - destruct n; reflexivity.
  - simpl in H. apply orb_false_iff in H as [Hc Hs].
    destruct n as [| n]; simpl.
    + destruct (ascii_dec c d) as [-> | _].
      * rewrite Ascii.eqb_refl in Hc. discriminate.
      * rewrite (IH 0%nat Hs). reflexivity.
    + rewrite (IH n Hs). reflexivity.
Qed.

Lemma find_no_char (c : ascii) (s : string) (pos : Z) :
  Str.mem c s = false -> Str.find s (String c "") pos = npos.
Proof.
  intros H. unfold Str.find. destruct (pos >? Str.size s); [reflexivity |].
  rewrite index_no_char by exact H. reflexivity.
Qed.

Lemma first_not_of_bound (chars s : string) (i : nat) :
  Str.first_not_of chars s = Some i -> (i < String.length s)%nat.
Proof.
  revert i. induction s as [| c s IH]; simpl; intros i H; [discriminate |].
  destruct (Str.mem c chars).
  - destruct (Str.first_not_of chars s) as [j |]; simpl in H; [| discriminate].
    injection H as <-. specialize (IH j eq_refl). lia.
  - injection H as <-. lia.
Qed.

Lemma last_not_of_some (chars s : string) (i : nat) :
  Str.first_not_of chars s = Some i -> exists j, Str.last_not_of chars s = Some j.
Proof.
  revert i. induction s as [| c s IH]; simpl; intros i H; [discriminate |].
  destruct (Str.last_not_of chars s) as [j |]; [eauto |].
  destruct (Str.mem c chars); [| eauto].
  destruct (Str.first_not_of chars s) as [k |]; simpl in H; [| discriminate].
  destruct (IH k eq_refl) as [j Hj]. discriminate.
Qed.

Lemma last_not_of_bound (chars s : string) (j : nat) :
  Str.last_not_of chars s = Some j -> (j < String.length s)%nat.
Proof.
  revert j. induction s as [| c s IH]; simpl; intros j H; [discriminate |].
  destruct (Str.last_not_of chars s) as [k |].
  - injection H as <-. specialize (IH k eq_refl). lia.
  - destruct (Str.mem c chars); [discriminate |]. injection H as <-. lia.
Qed.

Lemma append_assoc (a b c : string) : (a ++ b) ++ c = a ++ (b ++ c).
Proof.
  induction a as [| x a IH]; simpl; [reflexivity | rewrite IH; reflexivity].
Qed.

Lemma append_empty (a : string) : a ++ "" = a.
Proof.
  induction a as [| x a IH]; simpl; [reflexivity | rewrite IH; reflexivity].
Qed.

(** ** Facts about the streams *)

Lemma put_good (content s : string) :
  put (mkOfstream true content) s = mkOfstream true (content ++ s).
Proof. reflexivity. Qed.

(** A stream that is usable and open is what the constructor leaves on a
    file that could be opened. *)
Lemma good_open (f : ofstream) :
  good f = true -> isOpen f = true -> f = mkOfstream true (written f).
Proof.
  destruct f as [g o w]. simpl. intros -> ->. reflexivity.
Qed.

(** ** The trace of a successful generateTransaction *)

Lemma generateTransaction_trace (C : Constants) (t : Transaction)
    (line : string) (year : Z) (isJan : bool) (lf : string)
    (isOld isInterest : bool) (r : Transaction) :
  generateTransaction C (Some t) line year isJan lf isOld isInterest = Ok r ->
  exists month day rest,
    parsedMonth line isOld isInterest = Ok month /\
    afterDate line isOld isInterest = Ok rest /\
    date r = mkDate (if (isJan && (month =? 12))%bool then year - 1 else year)
                    month day /\
    lastFourDigits r = lf /\
    (if isInterest then referenceNumber r = referenceNumber t
     else Str.substr rest (Str.find_first_not_of rest " ") (wrap (REF_NUM_SIZE C))
          = Ok (referenceNumber r)).
Proof.
  unfold generateTransaction, parsedMonth, afterDate. intros H.
  bind_inv H. rename a into line1, Hstep into Hstrip.
  bind_inv H. rename a into monthStr, Hstep into HmonthStr.
  bind_inv H. rename a into month, Hstep into Hmonth.
  bind_inv H. rename a into dayStr, Hstep into HdayStr.
  bind_inv H. rename a into day, Hstep into Hday.
  bind_inv H. rename a into rest, Hstep into Hrest.
  bind_inv H. destruct a as [t' line3]. rename Hstep into Href.
  bind_inv H. bind_inv H. bind_inv H. bind_inv H. bind_inv H.
  injection H as <-.
  exists month, day, rest.
  rewrite Hstrip. simpl. rewrite HmonthStr. simpl.
  repeat split; try assumption.
  - destruct isInterest; simpl in Href.
    + injection Href as <- _. reflexivity.
    + unfold readRefNum in Href. bind_inv Href. bind_inv Href.
      injection Href as <- _. reflexivity.
  - destruct isInterest; simpl in Href.
    + injection Href as <- _. reflexivity.
    + unfold readRefNum in Href. bind_inv Href. bind_inv Href.
      injection Href as <- _. reflexivity.
  - destruct isInterest; simpl in Href.
    + injection Href as <- _. reflexivity.
    + unfold readRefNum in Href. bind_inv Href. bind_inv Href.
      injection Href as <- _. simpl. assumption.
Qed.

(** ** C10: trim *)

(** On a string without any character that is not white space (the empty
    string included) [trim] throws. *)
Lemma trim_blank_throws (s : string) :
  Str.first_not_of WS s = None ->
  Str.size s < npos ->
  trim s = Throw out_of_range.
Proof.
  intros Hblank Hsize. unfold trim, Str.find_first_not_of. rewrite Hblank.
  simpl Str.of_index. change (negb (npos =? 0)) with true. cbv iota.
  apply bind_throw. apply substr_past_end. exact Hsize.
Qed.

(** C10 (does not hold on the code). [trim] does not return normally on the
    empty string or on a string of white space only: [find_first_not_of]
    gives [npos], which is not 0, and [substr(npos)] throws
    [std::out_of_range]. On a string with white space at both ends the end
    position is measured on the original string but applied to the string
    already cut at the front, so trailing white space survives. A string
    with white space at one end only is trimmed. *)
Theorem trim_blank_throws_and_keeps_trailing :
  trim "" = Throw out_of_range /\
  trim "   " = Throw out_of_range /\
  trim "  ab  " = Ok "ab  " /\
  trim " a b   " = Ok "a b " /\
  trim "  ab" = Ok "ab" /\
  trim "ab  " = Ok "ab".
Proof. repeat split; vm_compute; reflexivity. Qed.

(** ** C4: the date of a statement *)

(** C4 (does not hold on the code). The date is read after the first
    backslash of the path, not after the last separator: with one backslash
    before the file name the three fields are those of the name, with a
    drive or a second directory in front they are cut out of a directory
    name, and with forward slashes only they are the first six characters
    of the path. *)
Theorem statementDate_after_first_backslash :
  statementDate "statements\011524.pdf" = Ok ("01", "15", "2024") /\
  statementDate "C:\statements\011524.pdf" = Ok ("st", "at", "20em") /\
  statementDate "2024\statements\011524.pdf" = Ok ("st", "at", "20em") /\
  statementDate "./statements/011524.pdf" = Ok ("./", "st", "20at").
Proof. repeat split; vm_compute; reflexivity. Qed.

(** ** C1: the example line *)

(** C1 as stated fails: whatever the width of a reference number, the
    example line does not yield the example record. The line has one
    date; the search for a second '/' gives [npos], [npos + 3] wraps to 2,
    and the rest of the line still starts with " 01/15", from which the
    reference number is then cut. *)
Lemma exampleLine_not_exampleRecord :
  ~ exists C : Constants,
      generateTransaction C (Some Transaction_new) exampleLine 2024 false
        "1234" false false = Ok exampleRecord.
Proof.
  intros [C H].
  apply generateTransaction_trace in H as (month & day & rest & _ & Hrest & _ & _ & Href).
  vm_compute in Hrest. injection Hrest as <-.
  apply substr_ok in Href as [_ Href].
  change (Z.to_nat (Str.find_first_not_of _ " ")) with 1%nat in Href.
  simpl referenceNumber in Href.
  destruct (Z.to_nat _) as [| k] in Href; simpl in Href; discriminate.
Qed.

(** C1 (amended): with the two date columns of a statement line and a
    reference number of nine characters, the example line yields the
    example record: date 2024-01-15, reference number "REF001234", name
    "STORE PURCHASE", amount 45.67, last four "1234". *)
Theorem exampleLineTwoDates_exampleRecord (C : Constants) :
  REF_NUM_SIZE C = 9 ->
  generateTransaction C (Some Transaction_new) exampleLineTwoDates 2024 false
    "1234" false false = Ok exampleRecord.
Proof.
  destruct C as [R p1 p2 p3 p4 p5 p6 p7 p8]. simpl. intros ->.
  vm_compute. reflexivity.
Qed.

Lemma exampleLineTwoDates_exampleRecord_witness :
  REF_NUM_SIZE Sample.constants = 9 /\
  generateTransaction Sample.constants (Some Transaction_new)
    exampleLineTwoDates 2024 false "1234" false false = Ok exampleRecord.
Proof.
  split; [reflexivity |].
  apply (exampleLineTwoDates_exampleRecord Sample.constants). reflexivity.
Defined.

(** ** C3: the year of a record *)

(** C3. For every line from which a record is produced, with [month] the
    month read from the line: a January statement and month 12 give the
    statement year minus one, every other combination gives the statement
    year. The statement year is an [int] that can be decremented. *)
Theorem year_correction (C : Constants) (t : Transaction) (line : string)
    (year : Z) (isJanuaryStatement : bool) (lastFour : string)
    (isOldFormat isInterestCharge : bool) (r : Transaction) :
  Num.INT_MIN < year <= Num.INT_MAX ->
  generateTransaction C (Some t) line year isJanuaryStatement lastFour
    isOldFormat isInterestCharge = Ok r ->
  exists month,
    parsedMonth line isOldFormat isInterestCharge = Ok month /\
    dateMonth (date r) = month /\
    (isJanuaryStatement = true /\ month = 12 -> dateYear (date r) = year - 1) /\
    (isJanuaryStatement = false \/ month <> 12 -> dateYear (date r) = year).
Proof.
  intros _ H.
  apply generateTransaction_trace in H as (month & day & rest & Hm & _ & Hd & _).
  exists month. rewrite Hd. simpl. repeat split; try assumption.
  - intros [-> ->]. reflexivity.
  - intros [-> | Hne]; [reflexivity |].
    apply Z.eqb_neq in Hne. rewrite Hne, andb_false_r. reflexivity.
Qed.

Lemma year_correction_witness :
  exists month,
    parsedMonth "12/15  12/16  REF001234   STORE PURCHASE          1,245.67"
      true false = Ok month /\
    dateMonth (mkDate 2023 12 15) = month /\
    (true = true /\ month = 12 -> dateYear (mkDate 2023 12 15) = 2024 - 1) /\
    (true = false \/ month <> 12 -> dateYear (mkDate 2023 12 15) = 2024).
Proof.
  apply (year_correction Sample.constants Transaction_new
           "12/15  12/16  REF001234   STORE PURCHASE          1,245.67"
           2024 true "1234" true false
           {| date := mkDate 2023 12 15;
              referenceNumber := "REF001234";
              amount := Qmake 124567 100;
              name := "STORE PURCHASE";
              lastFourDigits := "1234" |}).
  - vm_compute. split; [reflexivity | discriminate].
  - vm_compute. reflexivity.
Defined.

(** ** C6: lines without the expected delimiters *)

Lemma substring_length_le (s : string) (n m : nat) :
  (String.length (String.substring n m s) <= String.length s)%nat.
Proof.
  revert n m. induction s as [| c s IH]; intros n m.
  - destruct n, m; simpl; lia.
  - destruct n as [| n].
    + destruct m as [| m]; simpl; [lia |]. specialize (IH 0%nat m). lia.
    + simpl. specialize (IH n m). lia.
Qed.

Lemma substr_size_le (s s' : string) (pos n : Z) :
  Str.substr s pos n = Ok s' -> Str.size s' <= Str.size s.
Proof.
  intros H. apply substr_ok in H as [_ ->]. unfold Str.size.
  pose proof (substring_length_le s (Z.to_nat pos)
                (Z.to_nat (Z.min n (Z.of_nat (String.length s) - pos)))).
  lia.
Qed.

Lemma stripLastFour_cases (line : string) (isOld isInterest : bool) :
  stripLastFour line isOld isInterest = Throw out_of_range \/
  exists line1,
    stripLastFour line isOld isInterest = Ok line1 /\
    Str.size line1 <= Str.size line /\
    (forall c, Str.mem c line = false -> Str.mem c line1 = false).
Proof.
  unfold stripLastFour, Str.substr_from.
  destruct (negb isOld && negb isInterest)%bool.
  - destruct (Str.substr line _ npos) as [line1 | e] eqn:E.
    + right. exists line1. split; [reflexivity |]. split.
      * eapply substr_size_le; exact E.
      * intros c Hc. eapply substr_no_char; eassumption.
    + left. apply substr_throws in E. rewrite E. reflexivity.
  - right. exists line. split; [reflexivity |]. split; [lia | auto].
Qed.

(** C6 as stated fails: the date step looks for a second '/' (line 255), and
    a line without one is not refused. The search gives [npos], [npos + 3]
    wraps to 2, and extraction goes on to produce a record: for an interest
    line, and for the one-date example line of C1. *)
Lemma missing_second_slash_not_refused :
  Str.find "01/15 INTEREST CHARGE ON PURCHASES 12.34" "/" 3 = npos /\
  generateTransaction Sample.constants (Some Transaction_new)
    "01/15 INTEREST CHARGE ON PURCHASES 12.34" 2024 false "1234" false true
  = Ok {| date := mkDate 2024 1 15;
          referenceNumber := "";
          amount := Qmake 617 50;
          name := "/15 INTEREST CHARGE ON PURCHASES";
          lastFourDigits := "1234" |} /\
  generateTransaction Sample.constants (Some Transaction_new)
    exampleLine 2024 false "1234" false false
  = Ok {| date := mkDate 2024 1 15;
          referenceNumber := "01/15  RE";
          amount := Qmake 4567 100;
          name := "F001234   STORE PURCHASE";
          lastFourDigits := "1234" |}.
Proof. repeat split; vm_compute; reflexivity. Qed.

(** C6 (amended): a line that contains no '/' at all is refused, in every
    format: [find] gives [npos], the month is asked for at position
    [npos - 2], past the end of any string, and [substr] throws
    [std::out_of_range], which leaves [generateTransaction]. (The size bound
    holds for every [std::string]: [max_size()] is below it.) *)
Theorem no_slash_out_of_range (C : Constants) (t : Transaction) (line : string)
    (year : Z) (isJanuaryStatement : bool) (lastFour : string)
    (isOldFormat isInterestCharge : bool) :
  Str.mem "/" line = false ->
  Str.size line < npos - 2 ->
  generateTransaction C (Some t) line year isJanuaryStatement lastFour
    isOldFormat isInterestCharge = Throw out_of_range.
Proof.
  intros Hno Hsize. unfold generateTransaction.
  destruct (stripLastFour_cases line isOldFormat isInterestCharge)
    as [E | (line1 & E & Hle & Hmem)]; rewrite E; [reflexivity |].
  simpl. rewrite (find_no_char "/" line1 0 (Hmem _ Hno)).
  apply bind_throw. apply substr_past_end.
  change (wrap (npos - 2)) with (npos - 2). lia.
Qed.

Lemma no_slash_out_of_range_witness :
  Str.mem "/" "1234   0115  REF001234   STORE PURCHASE          45.67" = false /\
  generateTransaction Sample.constants (Some Transaction_new)
    "1234   0115  REF001234   STORE PURCHASE          45.67" 2024 false "1234"
    false false = Throw out_of_range.
Proof.
  split; [reflexivity |].
  apply (no_slash_out_of_range Sample.constants Transaction_new
           "1234   0115  REF001234   STORE PURCHASE          45.67").
  - reflexivity.
  - vm_compute. reflexivity.
Defined.

(** ** The scanner: C2, C5, C7 *)

Section Scanner.

Variable C : Constants.
Variable year : string.
Variable isJanuaryStatement : bool.

Lemma trim_nonblank (s : string) :
  Str.first_not_of WS s <> None -> exists s', trim s = Ok s'.
Proof.
  intros H. unfold trim, Str.find_first_not_of, Str.find_last_not_of.
  destruct (Str.first_not_of WS s) as [i |] eqn:Ei; [| congruence].
  destruct (last_not_of_some _ _ _ Ei) as [j Ej]. rewrite Ej. simpl.
  pose proof (first_not_of_bound _ _ _ Ei) as Hi.
  destruct (negb (Z.of_nat i =? 0)).
  - unfold Str.substr_from, Str.substr, Str.size.
    destruct (Z.of_nat i >? Z.of_nat (String.length s)) eqn:E; [exfalso; lia |].
    simpl. destruct (Z.of_nat j =? npos); [eauto | apply substr_front].
  - simpl. destruct (Z.of_nat j =? npos); [eauto | apply substr_front].
Qed.

Lemma saveTransaction_ok (st st' : State) (line : string) (o i : bool) :
  saveTransaction C year isJanuaryStatement st line o i = Ok st' ->
  exists t, st' = pushTransaction st t /\ lastFourDigits t = lastFour st.
Proof.
  unfold saveTransaction. intros H. bind_inv H. bind_inv H.
  injection H as <-. exists a0. split; [reflexivity |].
  apply generateTransaction_trace in Hstep0
    as (month & day & rest & _ & _ & _ & Hl & _).
  exact Hl.
Qed.

Lemma skipLine_ok (st st' : State) (line : string) :
  skipLine st line = Ok st' -> exists s, st' = writeSkippedLine st s.
Proof.
  unfold skipLine. intros H. bind_inv H. injection H as <-. eauto.
Qed.

(** What one line can do to the state. *)
Lemma processLine_ok (st st' : State) (line : string) :
  processLine C year isJanuaryStatement st line = Ok st' ->
  (lastFourFound st = false /\ exists v, st' = foundLastFour st v) \/
  (lastFourFound st' = lastFourFound st /\ lastFour st' = lastFour st /\
   (transactions st' = transactions st \/
    exists t, transactions st' = (transactions st ++ [t])%list /\
              lastFourDigits t = lastFour st)).
Proof.
  unfold processLine. intros H.
  destruct (negb (lastFourFound st) && lastFourPattern C line)%bool eqn:Emark.
  { left. apply andb_true_iff in Emark as [Hf _].
    apply negb_true_iff in Hf. split; [exact Hf |].
    bind_inv H. injection H as <-. eauto. }
  right.
  assert (Hsave : forall o i,
    saveTransaction C year isJanuaryStatement st line o i = Ok st' ->
    lastFourFound st' = lastFourFound st /\ lastFour st' = lastFour st /\
    (transactions st' = transactions st \/
     exists t, transactions st' = (transactions st ++ [t])%list /\
               lastFourDigits t = lastFour st)).
  { intros o i Hs. apply saveTransaction_ok in Hs as (t & -> & Ht).
    simpl. repeat split. right. eauto. }
  assert (Hskip :
    skipLine st line = Ok st' ->
    lastFourFound st' = lastFourFound st /\ lastFour st' = lastFour st /\
    (transactions st' = transactions st \/
     exists t, transactions st' = (transactions st ++ [t])%list /\
               lastFourDigits t = lastFour st)).
  { intros Hs. apply skipLine_ok in Hs as (s & ->). simpl. auto. }
  destruct (transactionTitleCount st <? 1).
  { injection H as <-. destruct (transactionTitlePattern C line); simpl; auto. }
  destruct (transactionPattern C line).
  { destruct (negb (transactionSkip C line)); eauto. }
  destruct (transactionPatternInterest C line).
  { destruct (negb (transactionSkip C line)); eauto. }
  destruct (transactionPatternOld C line).
  { destruct (negb (transactionSkip C line)); eauto. }
  destruct (transactionPatternSkippedRelevant C line); [eauto |].
  injection H as <-. auto.
Qed.

(** Introduce the two groups of a [carries] goal and split it in its five
    parts. *)
Ltac carries_with e l :=
  exists e, l; split; [| split; [| split; [| split]]].

Lemma carries_refl (st : State) : carries st st.
Proof.
  carries_with (@nil Transaction) (@nil Transaction); auto.
  rewrite !app_nil_r. reflexivity.
Qed.

Lemma carries_trans (st1 st2 st3 : State) :
  carries st1 st2 -> carries st2 st3 -> carries st1 st3.
Proof.
  intros (e & l & Htx & He & Hl & Hkeep & Hstill)
         (e' & l' & Htx' & He' & Hl' & Hkeep' & Hstill').
  destruct (lastFourFound st2) eqn:F2.
  - destruct (Hkeep' eq_refl) as [F3 L3].
    carries_with e (l ++ e' ++ l')%list.
    + rewrite Htx', Htx, <- !app_assoc. reflexivity.
    + exact He.
    + rewrite L3. rewrite L3 in Hl'.
      repeat (apply Forall_app; split); assumption.
    + intros F1. destruct (Hkeep F1) as [_ L2]. split; congruence.
    + congruence.
  - pose proof (Hstill eq_refl) as L2.
    carries_with (e ++ l ++ e')%list l'.
    + rewrite Htx', Htx, <- !app_assoc. reflexivity.
    + rewrite L2 in Hl, He'.
      repeat (apply Forall_app; split); assumption.
    + exact Hl'.
    + intros F1. destruct (Hkeep F1) as [F2' _]. congruence.
    + intros F3. rewrite (Hstill' F3). exact L2.
Qed.

Lemma carries_processLine (st st' : State) (line : string) :
  processLine C year isJanuaryStatement st line = Ok st' -> carries st st'.
Proof.
  intros H. apply processLine_ok in H
    as [[F (v & ->)] | (F & L & [Htx | (t & Htx & Ht)])].
  - carries_with (@nil Transaction) (@nil Transaction); simpl; auto.
    + rewrite !app_nil_r. reflexivity.
    + congruence.
    + discriminate.
  - carries_with (@nil Transaction) (@nil Transaction); auto.
    + rewrite !app_nil_r. exact Htx.
    + intros F1. split; congruence.
  - carries_with [t] (@nil Transaction); auto.
    intros F1. split; congruence.
Qed.

Lemma carries_processLines (lines : list string) (st st' : State) :
  processLines C year isJanuaryStatement st lines = Ok st' -> carries st st'.
Proof.
  revert st. induction lines as [| line rest IH]; simpl; intros st H.
  - injection H as <-. apply carries_refl.
  - bind_inv H. eapply carries_trans.
    + eapply carries_processLine; eassumption.
    + apply IH; assumption.
Qed.

Lemma carries_processPages (pages : list (option string)) (st st' : State) :
  processPages C year isJanuaryStatement st pages = Ok st' -> carries st st'.
Proof.
  revert st. induction pages as [| [text |] rest IH]; simpl; intros st H.
  - injection H as <-. apply carries_refl.
  - bind_inv H. eapply carries_trans.
    + eapply carries_processLines; eassumption.
    + apply IH; assumption.
  - discriminate.
Qed.

End Scanner.

(** The step that takes the last four out of a line cannot fail. *)
Lemma lastFour_substr_ok (line : string) :
  exists v, Str.substr line (wrap (Str.rfind line " " + 1)) 4 = Ok v.
Proof.
  unfold Str.substr.
  assert (H : wrap (Str.rfind line " " + 1) <= Str.size line).
  { unfold Str.rfind, Str.size.
    destruct (Str.last_of " " line) as [i |] eqn:E; simpl Str.of_index.
    - assert (Hi : (i < String.length line)%nat).
      { clear - E. revert i E. induction line as [| d s IH]; simpl; intros i E;
          [discriminate |].
        destruct (Str.last_of " " s) as [j |].
        - injection E as <-. specialize (IH j eq_refl). lia.
        - destruct (Ascii.eqb d " "); [| discriminate]. injection E as <-. lia. }
      unfold wrap, modulus, bits.
      pose proof (Z.mod_le (Z.of_nat i + 1) (2 ^ 64) ltac:(lia) ltac:(lia)).
      lia.
    - change (wrap (npos + 1)) with 0. lia. }
  destruct (Z.gtb_spec (wrap (Str.rfind line " " + 1)) (Str.size line));
    [lia | eauto].
Qed.

(** C2 (does not hold on the code). The test of line 148 is
    [transactionTitleCount < 1]: the first line that matches the title
    pattern ends the search, and the very next line is read as a
    transaction. Here the stream holds one title line and then one
    new-format line, which does not match the title pattern; its record is
    saved although the title has been seen only once. *)
Theorem first_title_starts_parsing (C : Constants) (year : string)
    (isJanuaryStatement : bool) (txs : list Transaction) (log : ofstream)
    (title line : string) (y : Z) (t : Transaction) :
  lastFourPattern C title = false ->
  transactionTitlePattern C title = true ->
  lastFourPattern C line = false ->
  transactionTitlePattern C line = false ->
  transactionPattern C line = true ->
  transactionSkip C line = false ->
  Num.stoi year = Ok y ->
  generateTransaction C (Some Transaction_new) line y isJanuaryStatement ""
    false false = Ok t ->
  processLines C year isJanuaryStatement (startFile txs log) [title; line]
  = Ok (mkState (txs ++ [t]) log 1 false "").
Proof.
  intros Ht1 Ht2 Hl1 _ Hl3 Hl4 Hy Hg.
  unfold processLines, processLine at 1, startFile.
  cbn -[generateTransaction Num.stoi]. rewrite Ht1, Ht2.
  unfold processLine, saveTransaction.
  cbn -[generateTransaction Num.stoi]. rewrite Hl1, Hl3, Hl4.
  cbn -[generateTransaction Num.stoi]. rewrite Hy.
  cbn -[generateTransaction Num.stoi]. rewrite Hg. reflexivity.
Qed.

Lemma first_title_starts_parsing_witness :
  processLines Sample.constants "2024" false
    (startFile [] (mkOfstream true "")) [Sample.titleLine; Sample.purchaseLine]
  = Ok (mkState ([] ++ [mkTransaction (mkDate 2024 1 15) "REF001234"
                          (Qmake 4567 100) "STORE PURCHASE" ""])
          (mkOfstream true "") 1 false "").
Proof.
  apply (first_title_starts_parsing Sample.constants "2024" false []
           (mkOfstream true "") Sample.titleLine Sample.purchaseLine 2024);
    vm_compute; reflexivity.
Defined.

(** C5 as stated fails: the search for the last four comes first (lines
    135-143) and ends with [continue]. Inside the transaction section, while
    the last four has not been found, a line that has the new-format shape
    and matches the skip pattern but also matches the last-four pattern is
    taken as the last-four line: no record, and nothing is written to the
    skipped-lines stream. *)
Lemma skip_line_taken_as_lastFour :
  transactionShaped Sample.constants
    "1234   01/20  01/21  REF001299   PAYMENT Ending in 9876   -45.67" = true /\
  transactionSkip Sample.constants
    "1234   01/20  01/21  REF001299   PAYMENT Ending in 9876   -45.67" = true /\
  processLine Sample.constants "2024" false
    (mkState [] (mkOfstream true "") 1 false "")
    "1234   01/20  01/21  REF001299   PAYMENT Ending in 9876   -45.67"
  = Ok (mkState [] (mkOfstream true "") 1 true "-45.").
Proof. repeat split; vm_compute; reflexivity. Qed.

(** C5 (amended). Inside the transaction section (the title has been
    counted), a line that has one of the three transaction shapes and
    matches the skip pattern never adds a record. While the last four has
    not been found, such a line that also matches the last-four pattern is
    taken as the last-four line and nothing is logged. Otherwise, on a
    skipped-lines stream that is usable and open, the stream holds
    afterwards what it held, then [trim(line)], then a newline, and nothing
    else changes; on a stream that has failed or has been closed the line is
    lost. (A line with a transaction shape has a character that is not white
    space, which is what [trim] needs to return.) *)
Theorem skip_pattern_logged_unless_lastFour (C : Constants) (year : string)
    (isJanuaryStatement : bool) (st : State) (line : string) :
  1 <= transactionTitleCount st ->
  transactionShaped C line = true ->
  transactionSkip C line = true ->
  Str.first_not_of WS line <> None ->
  (forall st',
     processLine C year isJanuaryStatement st line = Ok st' ->
     transactions st' = transactions st) /\
  (lastFourFound st = false -> lastFourPattern C line = true ->
   exists v,
     processLine C year isJanuaryStatement st line
     = Ok (mkState (transactions st) (skippedLines st)
             (transactionTitleCount st) true v)) /\
  (lastFourFound st = true \/ lastFourPattern C line = false ->
   good (skippedLines st) = true ->
   isOpen (skippedLines st) = true ->
   exists s,
     trim line = Ok s /\
     processLine C year isJanuaryStatement st line
     = Ok (mkState (transactions st)
             (mkOfstream true
                (written (skippedLines st) ++ s ++ String LF ""))
             (transactionTitleCount st) (lastFourFound st) (lastFour st))) /\
  (lastFourFound st = true \/ lastFourPattern C line = false ->
   good (skippedLines st) = false \/ isOpen (skippedLines st) = false ->
   exists log,
     processLine C year isJanuaryStatement st line
     = Ok (mkState (transactions st) log
             (transactionTitleCount st) (lastFourFound st) (lastFour st)) /\
     written log = written (skippedLines st)).
Proof.
  intros Hsec Hshape Hskip Hblank.
  assert (Hbody : (negb (lastFourFound st) && lastFourPattern C line)%bool = false ->
                  processLine C year isJanuaryStatement st line = skipLine st line).
  { intros Emark. unfold processLine. rewrite Emark.
    destruct (transactionTitleCount st <? 1) eqn:Ecount; [lia |].
    rewrite Hskip. simpl. unfold transactionShaped in Hshape.
    destruct (transactionPattern C line); [reflexivity |].
    destruct (transactionPatternInterest C line); [reflexivity |].
    destruct (transactionPatternOld C line); [reflexivity | discriminate]. }
  split; [| split; [| split]].
  - intros st' H.
    destruct (negb (lastFourFound st) && lastFourPattern C line)%bool eqn:Emark.
    + unfold processLine in H. rewrite Emark in H. bind_inv H.
      injection H as <-. reflexivity.
    + rewrite (Hbody eq_refl) in H. apply skipLine_ok in H as (s & ->).
      reflexivity.
  - intros Hf Hpat. unfold processLine. rewrite Hf, Hpat. simpl andb. cbv iota.
    destruct (lastFour_substr_ok line) as [v ->]. exists v. reflexivity.
  - intros Hreach Hgood Hopen.
    destruct (trim_nonblank line Hblank) as [s Hs]. exists s.
    split; [exact Hs |]. rewrite Hbody.
    + unfold skipLine, writeSkippedLine. rewrite Hs. simpl bind.
      rewrite (good_open _ Hgood Hopen), !put_good, append_assoc.
      reflexivity.
    + destruct Hreach as [-> | ->]; [reflexivity | apply andb_false_r].
  - intros Hreach Hlost.
    destruct (trim_nonblank line Hblank) as [s Hs].
    exists (put (put (skippedLines st) s) (String LF "")).
    split.
    + rewrite Hbody.
      * unfold skipLine, writeSkippedLine. rewrite Hs. reflexivity.
      * destruct Hreach as [-> | ->]; [reflexivity | apply andb_false_r].
    + unfold put. destruct (skippedLines st) as [g o w]. simpl in *.
      destruct Hlost as [-> | ->]; [reflexivity |].
      destruct g; [| reflexivity]. simpl.
      destruct (s =? "")%string; reflexivity.
Qed.

Lemma skip_pattern_logged_unless_lastFour_witness :
  exists s,
    trim Sample.paymentLine = Ok s /\
    processLine Sample.constants "2024" false
      (mkState [] (mkOfstream true "-- SKIPPED LINES --") 1 true "1234")
      Sample.paymentLine
    = Ok (mkState []
            (mkOfstream true ("-- SKIPPED LINES --" ++ s ++ String LF ""))
            1 true "1234").
Proof.
  apply (skip_pattern_logged_unless_lastFour Sample.constants "2024" false
           (mkState [] (mkOfstream true "-- SKIPPED LINES --") 1 true "1234")
           Sample.paymentLine).
  - simpl. lia.
  - vm_compute. reflexivity.
  - vm_compute. reflexivity.
  - vm_compute. discriminate.
  - left. reflexivity.
  - reflexivity.
  - reflexivity.
Defined.

(** C7 as stated fails: the scanner does not wait for the last-four line.
    With the title before it, a record is saved while [lastFourFound] is
    still false and carries the empty string; a record saved after the
    last-four line carries "1234", so the value differs between two records
    of one statement. *)
Lemma record_before_lastFour :
  processPages Sample.constants "2024" false
    (startFile [] (mkOfstream true ""))
    [Some (pageOf [Sample.titleLine; Sample.purchaseLine])]
  = Ok (mkState
          [mkTransaction (mkDate 2024 1 15) "REF001234" (Qmake 4567 100)
             "STORE PURCHASE" ""]
          (mkOfstream true "") 1 false "") /\
  processPages Sample.constants "2024" false
    (startFile [] (mkOfstream true ""))
    [Some (pageOf [Sample.titleLine; Sample.purchaseLine;
                   Sample.lastFourLine; Sample.purchaseLine])]
  = Ok (mkState
          [mkTransaction (mkDate 2024 1 15) "REF001234" (Qmake 4567 100)
             "STORE PURCHASE" "";
           mkTransaction (mkDate 2024 1 15) "REF001234" (Qmake 4567 100)
             "STORE PURCHASE" "1234"]
          (mkOfstream true "") 1 true "1234").
Proof. split; vm_compute; reflexivity. Qed.

(** C7 (amended): in every statement that is scanned to its end, the records
    added are first those saved before a last-four line was found, which
    carry the empty string, then those saved after it, which all carry the
    one value found; that value is the last four of the final state. *)
Theorem lastFour_fixed_once_found (C : Constants) (year : string)
    (isJanuaryStatement : bool) (txs : list Transaction) (log : ofstream)
    (pages : list (option string)) (st' : State) :
  processPages C year isJanuaryStatement (startFile txs log) pages = Ok st' ->
  exists early late,
    transactions st' = (txs ++ early ++ late)%list /\
    Forall (fun t => lastFourDigits t = "") early /\
    Forall (fun t => lastFourDigits t = lastFour st') late /\
    (lastFourFound st' = false -> lastFour st' = "").
Proof.
  intros H. apply carries_processPages in H
    as (early & late & Htx & He & Hl & _ & Hstill).
  exists early, late. auto.
Qed.

Lemma lastFour_fixed_once_found_witness :
  exists early late,
    [mkTransaction (mkDate 2024 1 15) "REF001234" (Qmake 4567 100)
       "STORE PURCHASE" "";
     mkTransaction (mkDate 2024 1 15) "REF001234" (Qmake 4567 100)
       "STORE PURCHASE" "1234"] = ([] ++ early ++ late)%list /\
    Forall (fun t => lastFourDigits t = "") early /\
    Forall (fun t => lastFourDigits t = "1234") late /\
    (true = false -> "1234" = "").
Proof.
  apply (lastFour_fixed_once_found Sample.constants "2024" false []
           (mkOfstream true "")
           [Some (pageOf [Sample.titleLine; Sample.purchaseLine;
                          Sample.lastFourLine; Sample.purchaseLine])]
           (mkState
              [mkTransaction (mkDate 2024 1 15) "REF001234" (Qmake 4567 100)
                 "STORE PURCHASE" "";
               mkTransaction (mkDate 2024 1 15) "REF001234" (Qmake 4567 100)
                 "STORE PURCHASE" "1234"]
              (mkOfstream true "") 1 true "1234")).
  vm_compute. reflexivity.
Defined.

(** ** C8: the CSV file *)

Lemma writeTransactions_written (getCsvFormat : Transaction -> string)
    (txs : list Transaction) (content : string) :
  writeTransactions getCsvFormat (mkOfstream true content) txs
  = mkOfstream true (content ++ csvLines getCsvFormat txs).
Proof.
  unfold writeTransactions. revert content.
  induction txs as [| t rest IH]; intros content; simpl.
  - rewrite append_empty. reflexivity.
  - rewrite !put_good, IH, !append_assoc. reflexivity.
Qed.

(** C8. When the output file can be opened: with no transaction its whole
    content is "None"; otherwise it consists of one line per transaction,
    in the order of the collection. *)
Theorem csv_none_or_line_per_transaction (getCsvFormat : Transaction -> string)
    (fileName : string) (txs : list Transaction) :
  generateCsvFile getCsvFormat fileName (mkOfstream true "") txs
  = Ok (match txs with
        | [] => "None"
        | _ :: _ => csvLines getCsvFormat txs
        end).
Proof.
  unfold generateCsvFile. simpl good. simpl negb. cbv iota.
  destruct txs as [| t rest].
  - reflexivity.
  - replace (Z.of_nat (List.length (t :: rest)) =? 0) with false
      by (symmetry; apply Z.eqb_neq; simpl List.length; lia).
    rewrite writeTransactions_written. reflexivity.
Qed.

(** ** C9: sorting *)

Lemma date_ltb_true (a b : Date) :
  date_ltb a b = true <->
  dateYear a < dateYear b \/
  (dateYear a = dateYear b /\
   (dateMonth a < dateMonth b \/
    (dateMonth a = dateMonth b /\ dateDay a < dateDay b))).
Proof.
  unfold date_ltb.
  rewrite !orb_true_iff, !andb_true_iff, !orb_true_iff, !andb_true_iff,
    !Z.ltb_lt, !Z.eqb_eq.
  reflexivity.
Qed.

Lemma date_ltb_false (a b : Date) :
  date_ltb a b = false <->
  ~ (dateYear a < dateYear b \/
     (dateYear a = dateYear b /\
      (dateMonth a < dateMonth b \/
       (dateMonth a = dateMonth b /\ dateDay a < dateDay b)))).
Proof.
  rewrite <- date_ltb_true. destruct (date_ltb a b); split; congruence.
Qed.

Lemma date_le_trans (a b c : Transaction) :
  date_le a b -> date_le b c -> date_le a c.
Proof.
  unfold date_le. rewrite !date_ltb_false. intros Hab Hbc. lia.
Qed.

(** A record dated before the pivot comes, in [date_le], before every record
    that is not. *)
Lemma before_le_notBefore (pivot x y : Transaction) :
  before pivot x = true -> notBefore pivot y = true -> date_le x y.
Proof.
  unfold notBefore, before, date_le. rewrite negb_true_iff.
  rewrite date_ltb_true, !date_ltb_false. intros Hx Hy. lia.
Qed.

Lemma before_le_pivot (pivot x : Transaction) :
  before pivot x = true -> date_le x pivot.
Proof.
  unfold before, date_le. rewrite date_ltb_true, date_ltb_false.
  intros Hx. lia.
Qed.

Lemma quickSort_In (l : list Transaction) (x : Transaction) :
  In x (quickSort l) <-> In x l.
Proof.
  funelim (quickSort l); simp quickSort; [reflexivity |].
  rewrite in_app_iff. simpl. rewrite H, H0, !filter_In.
  unfold notBefore. destruct (before pivot x); simpl; intuition congruence.
Qed.

Lemma StronglySorted_app (R : Transaction -> Transaction -> Prop)
    (a b : list Transaction) :
  StronglySorted R a -> StronglySorted R b ->
  (forall x y, In x a -> In y b -> R x y) ->
  StronglySorted R (a ++ b).
Proof.
  induction a as [| x a IH]; simpl; intros Ha Hb Hab; [exact Hb |].
  apply StronglySorted_inv in Ha as [Ha Hx].
  constructor.
  - apply IH; auto.
  - apply Forall_app. split; [exact Hx |].
    apply Forall_forall. intros y Hy. apply Hab; auto.
Qed.

Lemma quickSort_sorted (l : list Transaction) :
  StronglySorted date_le (quickSort l).
Proof.
  funelim (quickSort l); simp quickSort; [constructor |].
  apply StronglySorted_app; [assumption | |].
  - constructor; [assumption |].
    apply Forall_forall. intros y Hy.
    apply quickSort_In, filter_In in Hy as [_ Hy].
    unfold notBefore in Hy. apply negb_true_iff in Hy. exact Hy.
  - intros x y Hx [<- | Hy].
    + apply quickSort_In, filter_In in Hx as [_ Hx].
      apply before_le_pivot; exact Hx.
    + apply quickSort_In, filter_In in Hx as [_ Hx].
      apply quickSort_In, filter_In in Hy as [_ Hy].
      eapply before_le_notBefore; eassumption.
Qed.

Lemma quickSort_fixes_sorted (l : list Transaction) :
  StronglySorted date_le l -> quickSort l = l.
Proof.
  induction l as [| pivot rest IH]; intros Hs; simp quickSort; [reflexivity |].
  apply StronglySorted_inv in Hs as [Hrest Hall].
  assert (Hnone : filter (before pivot) rest = []).
  { rewrite <- (filter_false rest). apply filter_ext_in.
    intros x Hx. rewrite Forall_forall in Hall. apply (Hall x Hx). }
  assert (Hall' : filter (notBefore pivot) rest = rest).
  { apply forallb_filter_id, forallb_forall. intros x Hx.
    rewrite Forall_forall in Hall. unfold notBefore, before.
    rewrite (Hall x Hx). reflexivity. }
  rewrite Hnone, Hall'. simp quickSort. rewrite (IH Hrest). reflexivity.
Qed.

(** C9. Sorting a collection that is already in date order gives back the
    same sequence, and so sorting twice is sorting once, for every
    collection. *)
Theorem sortTransactions_idempotent (txs : list Transaction) :
  (Sorted date_le txs -> sortTransactions txs = txs) /\
  sortTransactions (sortTransactions txs) = sortTransactions txs.
Proof.
  unfold sortTransactions. split.
  - intros Hs. apply quickSort_fixes_sorted.
    apply Sorted_StronglySorted; [| exact Hs].
    intros a b c. apply date_le_trans.
  - apply quickSort_fixes_sorted, quickSort_sorted.
Qed.

Lemma sortTransactions_idempotent_witness :
  Sorted date_le
    [mkTransaction (mkDate 2023 12 30) "A" 0%Q "FIRST" "1234";
     mkTransaction (mkDate 2024 1 15) "B" 0%Q "SECOND" "1234";
     mkTransaction (mkDate 2024 1 15) "C" 0%Q "THIRD" "1234"] /\
  sortTransactions
    [mkTransaction (mkDate 2023 12 30) "A" 0%Q "FIRST" "1234";
     mkTransaction (mkDate 2024 1 15) "B" 0%Q "SECOND" "1234";
     mkTransaction (mkDate 2024 1 15) "C" 0%Q "THIRD" "1234"]
  = [mkTransaction (mkDate 2023 12 30) "A" 0%Q "FIRST" "1234";
     mkTransaction (mkDate 2024 1 15) "B" 0%Q "SECOND" "1234";
     mkTransaction (mkDate 2024 1 15) "C" 0%Q "THIRD" "1234"].
Proof.
  assert (Hs : Sorted date_le
    [mkTransaction (mkDate 2023 12 30) "A" 0%Q "FIRST" "1234";
     mkTransaction (mkDate 2024 1 15) "B" 0%Q "SECOND" "1234";
     mkTransaction (mkDate 2024 1 15) "C" 0%Q "THIRD" "1234"]).
  { repeat constructor. }
  split; [exact Hs |].
  apply (proj1 (sortTransactions_idempotent _) Hs).
Defined.

(** * Further properties of the code *)

(** ** Strings built by concatenation *)

Lemma length_append (a b : string) :
  String.length (a ++ b) = (String.length a + String.length b)%nat.
Proof.
  induction a as [| c a IH]; simpl; [reflexivity | rewrite IH; reflexivity].
Qed.

Lemma substring_skip (a b : string) (m : nat) :
  String.substring (String.length a) m (a ++ b) = String.substring 0 m b.
Proof.
  induction a as [| c a IH]; simpl; [reflexivity | exact IH].
Qed.

Lemma substring_all (s : string) (m : nat) :
  (String.length s <= m)%nat -> String.substring 0 m s = s.
Proof.
  revert m. induction s as [| c s IH]; intros m H.
  - destruct m; reflexivity.
  - destruct m as [| m]; simpl in *; [lia |]. rewrite IH by lia. reflexivity.
Qed.

Lemma substring_take (a b : string) (k : nat) :
  String.substring 0 (String.length a + k) (a ++ b) = a ++ String.substring 0 k b.
Proof.
  induction a as [| c a IH]; simpl; [reflexivity | rewrite IH; reflexivity].
Qed.

Lemma substring_prefix (a b : string) :
  String.substring 0 (String.length a) (a ++ b) = a.
Proof.
  rewrite <- (Nat.add_0_r (String.length a)), substring_take.
  destruct b; simpl; apply append_empty.
Qed.

Lemma first_not_of_app_blank (chars a b : string) :
  Str.first_not_of chars a = None ->
  Str.first_not_of chars (a ++ b)
  = option_map (Nat.add (String.length a)) (Str.first_not_of chars b).
Proof.
  induction a as [| c a IH]; simpl; intros H.
  - destruct (Str.first_not_of chars b); reflexivity.
  - destruct (Str.mem c chars); [| discriminate].
    destruct (Str.first_not_of chars a); [discriminate |].
    rewrite IH by reflexivity.
    destruct (Str.first_not_of chars b); reflexivity.
Qed.

Lemma first_not_of_app_head (chars a b : string) :
  Str.first_not_of chars a = Some 0%nat ->
  Str.first_not_of chars (a ++ b) = Some 0%nat.
Proof.
  destruct a as [| c a]; simpl; [discriminate |].
  destruct (Str.mem c chars); [| reflexivity].
  destruct (Str.first_not_of chars a); discriminate.
Qed.

Lemma last_not_of_blank (chars s : string) :
  Str.first_not_of chars s = None -> Str.last_not_of chars s = None.
Proof.
  induction s as [| c s IH]; simpl; [reflexivity |].
  destruct (Str.mem c chars); [| discriminate].
  destruct (Str.first_not_of chars s); [discriminate |].
  intros _. rewrite IH; reflexivity.
Qed.

Lemma last_not_of_app (chars a b : string) :
  Str.last_not_of chars (a ++ b)
  = match Str.last_not_of chars b with
    | Some j => Some (String.length a + j)%nat
    | None => Str.last_not_of chars a
    end.
Proof.
  induction a as [| c a IH]; simpl.
  - destruct (Str.last_not_of chars b); reflexivity.
  - rewrite IH. destruct (Str.last_not_of chars b); reflexivity.
Qed.

Lemma edgesNotIn_length (chars s : string) :
  edgesNotIn chars s -> (0 < String.length s)%nat.
Proof.
  intros [H _]. destruct s; simpl in *; [discriminate | lia].
Qed.

(** ** trim, completely *)

Lemma trim_split (lead core trail : string) :
  allIn WS lead ->
  allIn WS trail ->
  edgesNotIn WS core ->
  Str.size (lead ++ core ++ trail) < npos ->
  trim (lead ++ core ++ trail)
  = Ok (core ++ String.substring 0
                  (Nat.min (String.length lead) (String.length trail)) trail).
Proof.
  unfold allIn. intros Hlead Htrail Hcore Hsize.
  pose proof (edgesNotIn_length _ _ Hcore) as Hpos.
  destruct Hcore as [Hfirst Hlast].
  unfold Str.size in Hsize. rewrite !length_append in Hsize.
  unfold trim, Str.find_first_not_of, Str.find_last_not_of.
  rewrite (first_not_of_app_blank _ _ _ Hlead),
    (first_not_of_app_head _ _ _ Hfirst).
  rewrite !last_not_of_app, (last_not_of_blank _ _ Htrail), Hlast.
  simpl Str.of_index. rewrite Nat.add_0_r.
  assert (Hres :
    (if negb (Z.of_nat (String.length lead) =? 0)
     then Str.substr_from (lead ++ core ++ trail) (Z.of_nat (String.length lead))
     else Ok (lead ++ core ++ trail)) = Ok (core ++ trail)).
  { destruct (Z.eqb_spec (Z.of_nat (String.length lead)) 0) as [E | E]; simpl.
    - destruct lead; [reflexivity | simpl in E; lia].
    - unfold Str.substr_from, Str.substr, Str.size.
      rewrite !length_append.
      destruct (Z.gtb_spec (Z.of_nat (String.length lead))
                  (Z.of_nat (String.length lead
                             + (String.length core + String.length trail))))
        as [G | G]; [lia |].
      rewrite Nat2Z.id, substring_skip, substring_all; [reflexivity |].
      rewrite length_append. unfold npos, modulus, bits in *. lia. }
  rewrite Hres. simpl bind.
  unfold npos, modulus, bits in Hsize.
  destruct (Z.eqb_spec
              (Z.of_nat (String.length lead + pred (String.length core))) npos)
    as [E | E]; [unfold npos, modulus, bits in E; lia |].
  unfold Str.substr, Str.size. rewrite length_append.
  destruct (Z.gtb_spec 0
              (Z.of_nat (String.length core + String.length trail)))
    as [G | G]; [lia |].
  f_equal.
  replace (Z.to_nat 0) with 0%nat by reflexivity.
  replace (Z.to_nat _)
    with (String.length core
          + Nat.min (String.length lead) (String.length trail))%nat.
  - apply substring_take.
  - unfold wrap. rewrite Z.mod_small by (unfold npos, modulus, bits in *; lia).
    lia.
Qed.

(** X1. The whole behaviour of [trim] on a string that has something to keep:
    with [lead] and [trail] the white space around [core], the leading white
    space goes, and of the trailing white space as many characters stay as
    there were leading ones (at most all of them). (The size bound holds
    for every [std::string].) *)
Theorem trim_leaves_trailing (lead core trail : string) :
  allIn WS lead ->
  allIn WS trail ->
  edgesNotIn WS core ->
  Str.size (lead ++ core ++ trail) < npos ->
  trim (lead ++ core ++ trail)
  = Ok (core ++ String.substring 0
                  (Nat.min (String.length lead) (String.length trail)) trail).
Proof. apply trim_split. Qed.

Lemma trim_leaves_trailing_witness :
  trim ("   " ++ "a b" ++ "     ") = Ok ("a b" ++ "   ").
Proof.
  apply (trim_leaves_trailing "   " "a b" "     ").
  - reflexivity.
  - reflexivity.
  - split; reflexivity.
  - vm_compute. reflexivity.
Defined.
Lemma allIn_substring (chars s : string) (m : nat) :
  allIn chars s -> allIn chars (String.substring 0 m s).
Proof.
  unfold allIn. revert m. induction s as [| c s IH]; intros m H.
  - destruct m; reflexivity.
  - destruct m as [| m]; [reflexivity |]. simpl in *.
    destruct (Str.mem c chars); [| discriminate].
    destruct (Str.first_not_of chars s); [discriminate |].
    rewrite IH; reflexivity.
Qed.

(** X2. Trimming the result of [trim] once more removes what the first call
    left: two calls give the string without any surrounding white space. *)
Theorem trim_twice (lead core trail : string) :
  allIn WS lead ->
  allIn WS trail ->
  edgesNotIn WS core ->
  Str.size (lead ++ core ++ trail) < npos ->
  (r <- trim (lead ++ core ++ trail) ;; trim r) = Ok core.
Proof.
  intros Hlead Htrail Hcore Hsize.
  rewrite trim_split by assumption. simpl bind.
  set (k := Nat.min (String.length lead) (String.length trail)).
  change (core ++ String.substring 0 k trail)
    with ("" ++ core ++ String.substring 0 k trail).
  rewrite trim_split.
  - simpl Nat.min.
    replace (String.substring 0 0 (String.substring 0 k trail)) with ""
      by (destruct (String.substring 0 k trail); reflexivity).
    rewrite append_empty. reflexivity.
  - reflexivity.
  - apply allIn_substring; exact Htrail.
  - exact Hcore.
  - simpl append. unfold Str.size in *.
    rewrite !length_append in *.
    pose proof (substring_length_le trail 0 k). lia.
Qed.

Lemma trim_twice_witness :
  (r <- trim ("   " ++ "a b" ++ "     ") ;; trim r) = Ok "a b".
Proof.
  apply (trim_twice "   " "a b" "     ").
  - reflexivity.
  - reflexivity.
  - split; reflexivity.
  - vm_compute. reflexivity.
Defined.

(** X3. [trim] returns exactly on the strings that have a character to keep. *)
Theorem trim_returns_iff_not_blank (s : string) :
  Str.size s < npos ->
  ((exists r, trim s = Ok r) <-> ~ allIn WS s).
Proof.
  intros Hsize. unfold allIn. split.
  - intros [r Hr] Hblank.
    rewrite (trim_blank_throws s Hblank Hsize) in Hr. discriminate.
  - intros H. apply trim_nonblank. exact H.
Qed.

Lemma trim_returns_iff_not_blank_witness :
  (exists r, trim " x " = Ok r) <-> ~ allIn WS " x ".
Proof.
  apply (trim_returns_iff_not_blank " x "). vm_compute. reflexivity.
Defined.

(** What [trim] returns starts with a character that is not white space. *)
Lemma first_not_of_substring_at (chars s : string) (i k : nat) :
  Str.first_not_of chars s = Some i -> (0 < k)%nat ->
  Str.first_not_of chars (String.substring i k s) = Some 0%nat.
Proof.
  revert i. induction s as [| c s IH]; simpl; intros i H Hk; [discriminate |].
  destruct (Str.mem c chars) eqn:E.
  - destruct (Str.first_not_of chars s) as [j |]; simpl in H; [| discriminate].
    injection H as <-. simpl. apply IH; [reflexivity | exact Hk].
  - injection H as <-. destruct k as [| k]; [lia |]. simpl. rewrite E.
    reflexivity.
Qed.

Lemma trim_result_starts (s r : string) :
  Str.size s < npos -> trim s = Ok r -> Str.first_not_of WS r = Some 0%nat.
Proof.
  intros Hsize H.
  destruct (Str.first_not_of WS s) as [i |] eqn:Ei.
  2: { rewrite (trim_blank_throws s Ei Hsize) in H. discriminate. }
  destruct (last_not_of_some _ _ _ Ei) as [j Ej].
  pose proof (first_not_of_bound _ _ _ Ei) as Hi.
  pose proof (last_not_of_bound _ _ _ Ej) as Hj.
  unfold Str.size, npos, modulus, bits in Hsize.
  unfold trim, Str.find_first_not_of, Str.find_last_not_of in H.
  rewrite Ei, Ej in H. simpl Str.of_index in H.
  assert (Hres : exists res,
    (if negb (Z.of_nat i =? 0) then Str.substr_from s (Z.of_nat i) else Ok s)
    = Ok res /\ Str.first_not_of WS res = Some 0%nat).
  { destruct (Z.eqb_spec (Z.of_nat i) 0) as [E | E]; simpl.
    - exists s. split; [reflexivity |]. rewrite Ei. f_equal. lia.
    - unfold Str.substr_from, Str.substr, Str.size.
      destruct (Z.gtb_spec (Z.of_nat i) (Z.of_nat (String.length s)))
        as [G | G]; [lia |].
      eexists. split; [reflexivity |].
      rewrite Nat2Z.id. apply first_not_of_substring_at; [exact Ei |].
      unfold npos, modulus, bits. lia. }
  destruct Hres as (res & Hres & Hstart). rewrite Hres in H. simpl bind in H.
  destruct (Z.eqb_spec (Z.of_nat j) npos) as [E | E];
    [unfold npos, modulus, bits in E; lia |].
  apply substr_ok in H as [_ ->].
  change (Z.to_nat 0) with 0%nat.
  apply first_not_of_substring_at; [exact Hstart |].
  assert (0 < Str.size res).
  { unfold Str.size. destruct res; simpl in *; [discriminate | lia]. }
  unfold wrap. rewrite Z.mod_small by (unfold modulus, bits; lia). lia.
Qed.
(** ** generateTransaction: what a record looks like, how it fails *)

Lemma bind_throw_inv {A B : Type} (r : result A) (k : A -> result B) (e : exn) :
  bind r k = Throw e -> r = Throw e \/ exists a, r = Ok a /\ k a = Throw e.
Proof.
  destruct r as [a | e']; simpl; intros H; [right; eauto | left; congruence].
Qed.

(** Split a hypothesis [bind r k = Throw e] in its two cases; the first is
    left to the caller. *)
Ltac throw_inv H :=
  let a := fresh "a" in
  let Ha := fresh "Hstep" in
  apply bind_throw_inv in H; destruct H as [H | (a & Ha & H)].

Lemma stoi_throws (s : string) (e : exn) :
  Num.stoi s = Throw e -> isStdException e.
Proof.
  unfold Num.stoi, isStdException.
  destruct (Num.sign (Num.skip_space s)) as [neg s1].
  destruct (Num.digits s1 0) as [[n v] rest].
  destruct n; [intros [= <-]; auto |].
  destruct (_ && _)%bool; intros [= <-]; auto.
Qed.

Lemma stod_throws (s : string) (e : exn) :
  Num.stod s = Throw e -> isStdException e.
Proof.
  unfold Num.stod, isStdException.
  destruct (Num.sign (Num.skip_space s)) as [neg s1].
  destruct (Num.digits s1 0) as [[ni vi] s2].
  destruct (match s2 with
            | String "." s2' => Num.digits s2' vi
            | _ => (0%nat, vi, s2)
            end) as [[nf vf] s3].
  destruct (ni + nf)%nat; [intros [= <-]; auto |].
  destruct (_ || _)%bool; intros [= <-]; auto.
Qed.

Lemma trim_throws (s : string) (e : exn) : trim s = Throw e -> e = out_of_range.
Proof.
  unfold trim. intros H. throw_inv H.
  - destruct (negb _); [| discriminate].
    eapply substr_throws; exact H.
  - destruct (_ =? npos); [discriminate |]. eapply substr_throws; exact H.
Qed.

(** X4. With a record to fill, [generateTransaction] fails only through the
    library calls: what leaves it is [std::out_of_range] or
    [std::invalid_argument], never the repository's [Exception]. *)
Theorem generateTransaction_throws_std (C : Constants) (t : Transaction)
    (line : string) (year : Z) (isJanuaryStatement : bool) (lastFour : string)
    (isOldFormat isInterestCharge : bool) (e : exn) :
  generateTransaction C (Some t) line year isJanuaryStatement lastFour
    isOldFormat isInterestCharge = Throw e ->
  isStdException e.
Proof.
  assert (Hsub : forall s pos n e', Str.substr s pos n = Throw e' ->
                                    isStdException e').
  { intros s pos n e' H. left. eapply substr_throws; exact H. }
  unfold generateTransaction. intros H.
  throw_inv H.
  { unfold stripLastFour in H. destruct (_ && _)%bool; [| discriminate].
    eapply Hsub; exact H. }
  throw_inv H; [eapply Hsub; exact H |].
  throw_inv H; [eapply stoi_throws; exact H |].
  throw_inv H; [eapply Hsub; exact H |].
  throw_inv H; [eapply stoi_throws; exact H |].
  throw_inv H; [eapply Hsub; exact H |].
  throw_inv H.
  { destruct (negb isInterestCharge); [| discriminate].
    unfold readRefNum in H.
    throw_inv H; [eapply Hsub; exact H |].
    throw_inv H; [eapply Hsub; exact H | discriminate]. }
  destruct a5 as [t' line3].
  throw_inv H; [left; eapply trim_throws; exact H |].
  throw_inv H; [eapply Hsub; exact H |].
  throw_inv H; [eapply stod_throws; exact H |].
  throw_inv H; [eapply Hsub; exact H |].
  throw_inv H; [eapply Hsub; exact H | discriminate].
Qed.

Lemma generateTransaction_throws_std_witness :
  isStdException invalid_argument.
Proof.
  apply (generateTransaction_throws_std Sample.constants Transaction_new
           "ab/cd  01/16  REF001234   STORE PURCHASE          45.67"
           2024 false "1234" true false invalid_argument).
  vm_compute. reflexivity.
Defined.

(** Every step of a successful [generateTransaction] after the date. *)
Lemma generateTransaction_steps (C : Constants) (t : Transaction)
    (line : string) (year : Z) (isJan : bool) (lf : string)
    (isOld isInterest : bool) (r : Transaction) :
  generateTransaction C (Some t) line year isJan lf isOld isInterest = Ok r ->
  exists rest rest2 trimmed amountStr line5,
    afterDate line isOld isInterest = Ok rest /\
    (if isInterest then rest2 = rest /\ referenceNumber r = referenceNumber t
     else Str.substr rest (Str.find_first_not_of rest " ") (wrap (REF_NUM_SIZE C))
          = Ok (referenceNumber r) /\
          Str.substr_from rest
            (wrap (Str.find_first_not_of rest " " + REF_NUM_SIZE C)) = Ok rest2) /\
    trim rest2 = Ok trimmed /\
    Str.substr_from trimmed (wrap (Str.rfind trimmed " " + 1)) = Ok amountStr /\
    Num.stod (Str.remove "," amountStr) = Ok (amount r) /\
    Str.substr trimmed 0 (wrap (wrap (Str.rfind trimmed " " + 1) - 1)) = Ok line5 /\
    Str.substr line5 0 (wrap (Str.find_last_not_of line5 WS + 1)) = Ok (name r).
Proof.
  unfold generateTransaction, afterDate. intros H.
  bind_inv H. rename a into line1, Hstep into Hstrip.
  bind_inv H. bind_inv H. bind_inv H. bind_inv H.
  bind_inv H. rename a3 into rest, Hstep3 into Hrest.
  bind_inv H. destruct a3 as [t' rest2]. rename Hstep3 into Href.
  bind_inv H. rename a3 into trimmed, Hstep3 into Htrim.
  bind_inv H. rename a3 into amountStr, Hstep3 into Hamt.
  bind_inv H. rename a3 into amt, Hstep3 into Hstod.
  bind_inv H. rename a3 into line5, Hstep3 into Hline5.
  bind_inv H. rename a3 into nm, Hstep3 into Hname.
  injection H as <-.
  exists rest, rest2, trimmed, amountStr, line5.
  rewrite Hstrip. simpl bind.
  split; [exact Hrest |]. split.
  - destruct isInterest; simpl in Href.
    + injection Href as <- <-. split; reflexivity.
    + unfold readRefNum in Href. bind_inv Href. bind_inv Href.
      injection Href as <- <-. simpl. split; assumption.
  - repeat split; assumption.
Qed.
Lemma afterDate_size (line rest : string) (isOld isInterest : bool) :
  afterDate line isOld isInterest = Ok rest -> Str.size rest <= Str.size line.
Proof.
  unfold afterDate. intros H. bind_inv H.
  destruct (stripLastFour_cases line isOld isInterest)
    as [E | (line1 & E & Hle & _)]; rewrite E in Hstep; [discriminate |].
  injection Hstep as <-. apply substr_size_le in H. lia.
Qed.

Lemma substring_length (s : string) (n m : nat) :
  (n + m <= String.length s)%nat ->
  String.length (String.substring n m s) = m.
Proof.
  revert n m. induction s as [| c s IH]; intros n m H; simpl in H.
  - assert (n = 0%nat) by lia. assert (m = 0%nat) by lia. subst. reflexivity.
  - destruct n as [| n].
    + destruct m as [| m]; simpl; [reflexivity |]. rewrite IH by lia. reflexivity.
    + simpl. apply IH. lia.
Qed.

(** X5. A record that is not an interest charge has a reference number of
    exactly [REF_NUM_SIZE] characters, and its first character (when the
    width is not 0) is not a space. The width is a size, and positions in
    the line do not wrap around. *)
Theorem referenceNumber_width (C : Constants) (t : Transaction) (line : string)
    (year : Z) (isJanuaryStatement : bool) (lastFour : string)
    (isOldFormat : bool) (r : Transaction) :
  0 <= REF_NUM_SIZE C ->
  REF_NUM_SIZE C + Str.size line < npos ->
  generateTransaction C (Some t) line year isJanuaryStatement lastFour
    isOldFormat false = Ok r ->
  Str.size (referenceNumber r) = REF_NUM_SIZE C /\
  (0 < REF_NUM_SIZE C -> Str.first_not_of " " (referenceNumber r) = Some 0%nat).
Proof.
  intros HR Hsize H.
  apply generateTransaction_steps in H
    as (rest & rest2 & trimmed & amountStr & line5 & Hrest & [Href Hnext] & _).
  apply afterDate_size in Hrest.
  unfold Str.find_first_not_of in *.
  unfold Str.size, npos, modulus, bits in *.
  apply substr_ok in Href as [Hidx Href].
  apply substr_ok in Hnext as [Hend _].
  unfold Str.size in *.
  destruct (Str.first_not_of " " rest) as [i |] eqn:Ei; simpl Str.of_index in *.
  2: { unfold npos, modulus, bits in Hidx. lia. }
  unfold wrap, modulus, bits in *.
  rewrite Z.mod_small in Hend by lia.
  rewrite Z.mod_small in Href by lia.
  rewrite Nat2Z.id in Href.
  replace (Z.to_nat (Z.min (REF_NUM_SIZE C) (Z.of_nat (String.length rest) - Z.of_nat i)))
    with (Z.to_nat (REF_NUM_SIZE C)) in Href by lia.
  rewrite Href. split.
  - rewrite substring_length by lia. lia.
  - intros Hpos. apply first_not_of_substring_at; [exact Ei | lia].
Qed.

Lemma referenceNumber_width_witness :
  Str.size "REF001234" = REF_NUM_SIZE Sample.constants /\
  (0 < REF_NUM_SIZE Sample.constants ->
   Str.first_not_of " " "REF001234" = Some 0%nat).
Proof.
  apply (referenceNumber_width Sample.constants Transaction_new
           exampleLineTwoDates 2024 false "1234" false exampleRecord).
  - vm_compute. discriminate.
  - vm_compute. reflexivity.
  - vm_compute. reflexivity.
Defined.

Lemma trim_size_le (s r : string) : trim s = Ok r -> Str.size r <= Str.size s.
Proof.
  unfold trim. intros H. bind_inv H.
  assert (Ha : Str.size a <= Str.size s).
  { destruct (negb _).
    - eapply substr_size_le; exact Hstep.
    - injection Hstep as <-. lia. }
  destruct (_ =? npos).
  - injection H as <-. unfold Str.size in *. simpl. lia.
  - apply substr_size_le in H. lia.
Qed.

Lemma last_not_of_substring (chars s : string) (j : nat) :
  Str.last_not_of chars s = Some j ->
  Str.last_not_of chars (String.substring 0 (S j) s) = Some j /\
  String.length (String.substring 0 (S j) s) = S j.
Proof.
  revert j. induction s as [| c s IH]; intros j H; simpl in H; [discriminate |].
  destruct (Str.last_not_of chars s) as [i |] eqn:E.
  - injection H as <-. destruct (IH i eq_refl) as [IH1 IH2].
    change (String.substring 0 (S (S i)) (String c s))
      with (String c (String.substring 0 (S i) s)).
    simpl. rewrite IH1, IH2. split; reflexivity.
  - destruct (Str.mem c chars) eqn:M; [discriminate |]. injection H as <-.
    change (String.substring 0 1 (String c s))
      with (String c (String.substring 0 0 s)).
    replace (String.substring 0 0 s) with "" by (destruct s; reflexivity).
    simpl. rewrite M. split; reflexivity.
Qed.

Lemma last_of_bound (c : ascii) (s : string) (i : nat) :
  Str.last_of c s = Some i -> (i < String.length s)%nat.
Proof.
  revert i. induction s as [| d s IH]; simpl; intros i E; [discriminate |].
  destruct (Str.last_of c s) as [j |].
  - injection E as <-. specialize (IH j eq_refl). lia.
  - destruct (Ascii.eqb d c); [| discriminate]. injection E as <-. lia.
Qed.

(** In a string that starts with a character that is not white space, the
    last space is not the first character. *)
Lemma last_space_after_start (s : string) (i : nat) :
  Str.first_not_of WS s = Some 0%nat -> Str.last_of " " s = Some i ->
  (1 <= i)%nat.
Proof.
  destruct s as [| c s]; [discriminate |]. intros Hf Hl.
  assert (Hc : Ascii.eqb c " " = false).
  { cbn [Str.first_not_of] in Hf. destruct (Str.mem c WS) eqn:M.
    - destruct (Str.first_not_of WS s); discriminate.
    - unfold WS in M. cbn [Str.mem] in M.
      apply orb_false_iff in M as [M _]. exact M. }
  cbn [Str.last_of] in Hl. rewrite Hc in Hl.
  destruct (Str.last_of " " s) as [j |]; [| discriminate].
  injection Hl as <-. lia.
Qed.

(** What is left of the trimmed line when the amount has been cut off still
    starts with a character that is not white space. *)
Lemma before_amount_starts (trimmed line5 : string) :
  Str.size trimmed < npos ->
  Str.first_not_of WS trimmed = Some 0%nat ->
  Str.substr trimmed 0 (wrap (wrap (Str.rfind trimmed " " + 1) - 1)) = Ok line5 ->
  Str.first_not_of WS line5 = Some 0%nat.
Proof.
  intros Hsize Hstart H. apply substr_ok in H as [_ ->].
  change (Z.to_nat 0) with 0%nat.
  apply first_not_of_substring_at; [exact Hstart |].
  assert (Hlen : 1 <= Str.size trimmed).
  { unfold Str.size. destruct trimmed; simpl in *; [discriminate | lia]. }
  assert (Hcut : 1 <= wrap (wrap (Str.rfind trimmed " " + 1) - 1)).
  { unfold Str.rfind.
    destruct (Str.last_of " " trimmed) as [i |] eqn:E; simpl Str.of_index.
    - pose proof (last_of_bound _ _ _ E) as Hi.
      pose proof (last_space_after_start _ _ Hstart E) as Hi1.
      unfold Str.size, npos, wrap, modulus, bits in *.
      rewrite (Z.mod_small (Z.of_nat i + 1)) by lia.
      rewrite Z.mod_small by lia. lia.
    - vm_compute. discriminate. }
  lia.
Qed.

(** X6. The name of a record is never empty and has no white space at either
    end. (When the rest of the line holds no space, the text of the amount
    is the name as well. The size bound holds for every [std::string].) *)
Theorem name_without_surrounding_space (C : Constants) (t : Transaction)
    (line : string) (year : Z) (isJanuaryStatement : bool) (lastFour : string)
    (isOldFormat isInterestCharge : bool) (r : Transaction) :
  Str.size line < npos ->
  generateTransaction C (Some t) line year isJanuaryStatement lastFour
    isOldFormat isInterestCharge = Ok r ->
  name r <> "" /\ edgesNotIn WS (name r).
Proof.
  intros Hsize H.
  apply generateTransaction_steps in H
    as (rest & rest2 & trimmed & amountStr & line5 & Hrest & Href & Htrim
        & _ & _ & Hline5 & Hname).
  apply afterDate_size in Hrest.
  assert (Hrest2 : Str.size rest2 <= Str.size rest).
  { destruct isInterestCharge.
    - destruct Href as [-> _]. lia.
    - destruct Href as [_ Href]. apply substr_size_le in Href. exact Href. }
  assert (Hstart : Str.first_not_of WS trimmed = Some 0%nat).
  { eapply trim_result_starts; [| exact Htrim]. lia. }
  pose proof (trim_size_le _ _ Htrim) as Htrimmed.
  assert (Hstart5 : Str.first_not_of WS line5 = Some 0%nat).
  { eapply before_amount_starts; [| exact Hstart | exact Hline5]. lia. }
  pose proof (substr_size_le _ _ _ _ Hline5) as Hsz5.
  apply substr_ok in Hname as [_ Hname].
  change (Z.to_nat 0) with 0%nat in Hname.
  unfold Str.find_last_not_of in Hname.
  destruct (last_not_of_some _ _ _ Hstart5) as [j Ej].
  rewrite Ej in Hname. simpl Str.of_index in Hname.
  pose proof (last_not_of_bound _ _ _ Ej) as Hj.
  unfold Str.size, npos, modulus, bits in *.
  replace (Z.to_nat _) with (S j) in Hname.
  2: { unfold wrap, modulus, bits. rewrite Z.mod_small by lia. lia. }
  destruct (last_not_of_substring _ _ _ Ej) as [Hl1 Hl2].
  rewrite Hname.
  assert (Hedges : edgesNotIn WS (String.substring 0 (S j) line5)).
  { split.
    - apply (first_not_of_substring_at WS line5 0 (S j)); [exact Hstart5 | lia].
    - rewrite Hl2. exact Hl1. }
  split; [| exact Hedges].
  intros E. rewrite E in Hl2. discriminate.
Qed.

Lemma name_without_surrounding_space_witness :
  name exampleRecord <> "" /\ edgesNotIn WS (name exampleRecord).
Proof.
  apply (name_without_surrounding_space Sample.constants Transaction_new
           exampleLineTwoDates 2024 false "1234" false false exampleRecord).
  - vm_compute. reflexivity.
  - vm_compute. reflexivity.
Defined.

Lemma of_index_range (o : option nat) (s : string) :
  (forall i, o = Some i -> (i < String.length s)%nat) ->
  Str.of_index o = npos \/ 0 <= Str.of_index o < Str.size s.
Proof.
  intros H. destruct o as [i |]; simpl; [right | left; reflexivity].
  specialize (H i eq_refl). unfold Str.size. lia.
Qed.

Lemma prefix_empty (s : string) : String.prefix "" s = true.
Proof. destruct s; reflexivity. Qed.

Lemma index_char_bound (c : ascii) (s : string) (n i : nat) :
  String.index n (String c "") s = Some i -> (i < String.length s)%nat.
Proof.
  revert n i. induction s as [| d s IH]; intros n i H.
  - destruct n; simpl in H; discriminate.
  - destruct n as [| n]; simpl in H.
    + destruct (ascii_dec c d).
      * rewrite prefix_empty in H. injection H as <-. simpl. lia.
      * destruct (String.index 0 (String c "") s) as [j |] eqn:E; [| discriminate].
        injection H as <-. specialize (IH _ _ E). simpl. lia.
    + destruct (String.index n (String c "") s) as [j |] eqn:E; [| discriminate].
      injection H as <-. specialize (IH _ _ E). simpl. lia.
Qed.

Lemma find_char_range (c : ascii) (s : string) (pos : Z) :
  Str.find s (String c "") pos = npos \/
  0 <= Str.find s (String c "") pos < Str.size s.
Proof.
  unfold Str.find. destruct (pos >? Str.size s); [left; reflexivity |].
  apply of_index_range. intros i. apply index_char_bound.
Qed.

(** X7. The first '/' of a line (after the last-four token of a new-format
    line) needs two characters before it: with the '/' in the first or
    second column the month is asked for at a position that wraps around
    past the end, and [std::out_of_range] leaves [generateTransaction]. *)
Theorem slash_in_first_columns_out_of_range (C : Constants) (t : Transaction)
    (line line1 : string) (year : Z) (isJanuaryStatement : bool)
    (lastFour : string) (isOldFormat isInterestCharge : bool) :
  stripLastFour line isOldFormat isInterestCharge = Ok line1 ->
  Str.find line1 "/" 0 < 2 ->
  Str.size line1 < npos - 2 ->
  generateTransaction C (Some t) line year isJanuaryStatement lastFour
    isOldFormat isInterestCharge = Throw out_of_range.
Proof.
  intros Hstrip Hidx Hsize. unfold generateTransaction. rewrite Hstrip.
  simpl bind. apply bind_throw. apply substr_past_end.
  destruct (find_char_range "/" line1 0) as [E | E];
    [rewrite E in Hidx; vm_compute in Hidx; discriminate |].
  unfold wrap, npos, modulus, bits in *.
  replace (Str.find line1 "/" 0 - 2)
    with ((Str.find line1 "/" 0 - 2 + 2 ^ 64) + (-1) * 2 ^ 64) by lia.
  rewrite Z.mod_add by lia. rewrite Z.mod_small by lia. lia.
Qed.

Lemma slash_in_first_columns_out_of_range_witness :
  generateTransaction Sample.constants (Some Transaction_new)
    "1/15  01/16  REF001234   STORE PURCHASE          45.67" 2024 false "1234"
    true false = Throw out_of_range.
Proof.
  apply (slash_in_first_columns_out_of_range Sample.constants Transaction_new
           "1/15  01/16  REF001234   STORE PURCHASE          45.67"
           "1/15  01/16  REF001234   STORE PURCHASE          45.67").
  - reflexivity.
  - vm_compute. reflexivity.
  - vm_compute. reflexivity.
Defined.

(** ** Numbers read from two characters *)

Lemma digit_range (c : ascii) (d : Z) : Num.digit c = Some d -> 0 <= d <= 9.
Proof.
  unfold Num.digit.
  destruct (Nat.leb 48 (nat_of_ascii c) && Nat.leb (nat_of_ascii c) 57)%bool
    eqn:E; [| discriminate].
  intros [= <-]. apply andb_true_iff in E as [E1 E2].
  apply Nat.leb_le in E1, E2. lia.
Qed.

Lemma digits_bound (s : string) (acc : Z) (n : nat) (v : Z) (r : string) :
  0 <= acc ->
  Num.digits s acc = (n, v, r) ->
  acc * 10 ^ Z.of_nat n <= v < (acc + 1) * 10 ^ Z.of_nat n /\
  (n + String.length r = String.length s)%nat.
Proof.
  revert acc n v r. induction s as [| c s IH]; intros acc n v r Hacc H.
  - simpl in H. injection H as <- <- <-. simpl. lia.
  - cbn [Num.digits] in H. destruct (Num.digit c) as [d |] eqn:Ed.
    + destruct (Num.digits s (10 * acc + d)) as [[n' v'] r'] eqn:E.
      injection H as <- <- <-.
      pose proof (digit_range _ _ Ed) as Hd.
      assert (Hacc' : 0 <= 10 * acc + d) by lia.
      destruct (IH _ _ _ _ Hacc' E) as [Hv Hlen].
      rewrite Nat2Z.inj_succ, Z.pow_succ_r by lia.
      assert (Hp : 0 < 10 ^ Z.of_nat n') by (apply Z.pow_pos_nonneg; lia).
      split; [nia | simpl; lia].
    + injection H as <- <- <-. simpl. lia.
Qed.

Lemma skip_space_length (s : string) :
  (String.length (Num.skip_space s) <= String.length s)%nat.
Proof.
  induction s as [| c s IH]; simpl; [lia |].
  destruct (Num.isspace c); simpl; lia.
Qed.

Lemma sign_length (s s1 : string) (neg : bool) :
  Num.sign s = (neg, s1) ->
  (String.length s1 + (if neg then 1 else 0) <= String.length s)%nat.
Proof.
  unfold Num.sign. destruct s as [| c s]; [intros [= <- <-]; simpl; lia |].
  destruct c as [[] [] [] [] [] [] [] []]; intros [= <- <-]; simpl; lia.
Qed.

Lemma pow10_le (n m : nat) : (n <= m)%nat -> 10 ^ Z.of_nat n <= 10 ^ Z.of_nat m.
Proof. intros H. apply Z.pow_le_mono_r; lia. Qed.

(** [stoi] of at most two characters. *)
Lemma stoi_two_chars (s : string) (v : Z) :
  (String.length s <= 2)%nat -> Num.stoi s = Ok v -> -9 <= v <= 99.
Proof.
  intros Hlen. unfold Num.stoi.
  destruct (Num.sign (Num.skip_space s)) as [neg s1] eqn:Es.
  destruct (Num.digits s1 0) as [[n w] rest] eqn:Ed.
  pose proof (skip_space_length s) as Hsk.
  pose proof (sign_length _ _ _ Es) as Hsg.
  destruct (digits_bound _ _ _ _ _ (Z.le_refl 0) Ed) as [Hw Hn].
  destruct n as [| n]; [discriminate |].
  destruct (_ && _)%bool; [| discriminate]. intros [= <-].
  destruct neg.
  - pose proof (pow10_le (S n) 1 ltac:(lia)) as Hp. change (10 ^ Z.of_nat 1) with 10 in Hp. lia.
  - pose proof (pow10_le (S n) 2 ltac:(lia)) as Hp. change (10 ^ Z.of_nat 2) with 100 in Hp. lia.
Qed.

Lemma substring_length_le_count (s : string) (n m : nat) :
  (String.length (String.substring n m s) <= m)%nat.
Proof.
  revert n m. induction s as [| c s IH]; intros n m.
  - destruct n, m; simpl; lia.
  - destruct n as [| n].
    + destruct m as [| m]; simpl; [lia |]. specialize (IH 0%nat m). lia.
    + simpl. apply IH.
Qed.

Lemma substr_count (s s' : string) (pos n : Z) :
  0 <= n -> Str.substr s pos n = Ok s' -> Str.size s' <= n.
Proof.
  intros Hn H. apply substr_ok in H as [_ ->]. unfold Str.size.
  pose proof (substring_length_le_count s (Z.to_nat pos)
                (Z.to_nat (Z.min n (Z.of_nat (String.length s) - pos)))).
  lia.
Qed.

(** X8. The month and the day of a record are what two characters of the line
    spell: numbers between -9 and 99. Nothing narrows them to the months
    and days of a calendar. *)
Theorem month_day_two_characters (C : Constants) (t : Transaction)
    (line : string) (year : Z) (isJanuaryStatement : bool) (lastFour : string)
    (isOldFormat isInterestCharge : bool) (r : Transaction) :
  generateTransaction C (Some t) line year isJanuaryStatement lastFour
    isOldFormat isInterestCharge = Ok r ->
  -9 <= dateMonth (date r) <= 99 /\ -9 <= dateDay (date r) <= 99.
Proof.
  unfold generateTransaction. intros H.
  bind_inv H. bind_inv H. bind_inv H. bind_inv H. bind_inv H. bind_inv H.
  bind_inv H. destruct a5 as [t' line3].
  assert (Hdate : date t' = mkDate
            (if (isJanuaryStatement && (a1 =? 12))%bool then year - 1 else year)
            a1 a3).
  { destruct isInterestCharge; simpl in Hstep5.
    - injection Hstep5 as <- _. reflexivity.
    - unfold readRefNum in Hstep5. bind_inv Hstep5. bind_inv Hstep5.
      injection Hstep5 as <- _. reflexivity. }
  bind_inv H. bind_inv H. bind_inv H. bind_inv H. bind_inv H.
  injection H as <-. simpl. rewrite Hdate. simpl.
  apply substr_count in Hstep0, Hstep2; try lia.
  unfold Str.size in *.
  split; eapply stoi_two_chars; try eassumption; lia.
Qed.
Lemma month_day_two_characters_witness :
  -9 <= dateMonth (date exampleRecord) <= 99 /\
  -9 <= dateDay (date exampleRecord) <= 99.
Proof.
  apply (month_day_two_characters Sample.constants Transaction_new
           exampleLineTwoDates 2024 false "1234" false false exampleRecord).
  vm_compute. reflexivity.
Defined.

(** ** The date of a statement, read from its path *)

Lemma index_first_char (c : ascii) (a b : string) :
  Str.mem c a = false ->
  String.index 0 (String c "") (a ++ String c b) = Some (String.length a).
Proof.
  induction a as [| d a IH]; simpl; intros H.
  - destruct (ascii_dec c c) as [_ | N]; [| congruence].
    rewrite prefix_empty. reflexivity.
  - apply orb_false_iff in H as [Hd Ha].
    destruct (ascii_dec c d) as [-> | _].
    + rewrite Ascii.eqb_refl in Hd. discriminate.
    + rewrite (IH Ha). reflexivity.
Qed.

Lemma substring_middle (a b c : string) :
  String.substring (String.length a) (String.length b) (a ++ b ++ c) = b.
Proof. rewrite substring_skip. apply substring_prefix. Qed.

(** The three fields of [statementDate] when position [i] is where the first
    of them starts and the path is long enough. *)
Lemma statementDate_fields (file : string) (i : Z) (a mm dd yy rest : string) :
  wrap (Str.find file "\" 0 + 1) = i ->
  wrap (Str.find file "\" 0 + 3) = i + 2 ->
  wrap (Str.find file "\" 0 + 5) = i + 4 ->
  i = Str.size a ->
  file = a ++ mm ++ dd ++ yy ++ rest ->
  String.length mm = 2%nat -> String.length dd = 2%nat ->
  String.length yy = 2%nat ->
  statementDate file = Ok (mm, dd, "20" ++ yy).
Proof.
  intros H1 H3 H5 Hi Hfile Hmm Hdd Hyy.
  unfold statementDate. rewrite H1, H3, H5.
  assert (Hlen : String.length file
                 = (String.length a + 6 + String.length rest)%nat).
  { rewrite Hfile, !length_append. lia. }
  assert (M : Str.substr file i 2 = Ok mm).
  { unfold Str.substr, Str.size.
    destruct (Z.gtb_spec i (Z.of_nat (String.length file))) as [G | G];
      [unfold Str.size in Hi; lia |].
    f_equal. unfold Str.size in Hi.
    replace (Z.to_nat i) with (String.length a) by lia.
    replace (Z.to_nat _) with (String.length mm) by lia.
    rewrite Hfile. apply substring_middle. }
  assert (D : Str.substr file (i + 2) 2 = Ok dd).
  { unfold Str.substr, Str.size.
    destruct (Z.gtb_spec (i + 2) (Z.of_nat (String.length file))) as [G | G];
      [unfold Str.size in Hi; lia |].
    f_equal. unfold Str.size in Hi.
    replace (Z.to_nat (i + 2)) with (String.length (a ++ mm))
      by (rewrite length_append; lia).
    replace (Z.to_nat _) with (String.length dd) by lia.
    rewrite Hfile, <- (append_assoc a mm). apply substring_middle. }
  assert (Y : Str.substr file (i + 4) 2 = Ok yy).
  { unfold Str.substr, Str.size.
    destruct (Z.gtb_spec (i + 4) (Z.of_nat (String.length file))) as [G | G];
      [unfold Str.size in Hi; lia |].
    f_equal. unfold Str.size in Hi.
    replace (Z.to_nat (i + 4)) with (String.length ((a ++ mm) ++ dd))
      by (rewrite !length_append; lia).
    replace (Z.to_nat _) with (String.length yy) by lia.
    rewrite Hfile, <- (append_assoc a mm), <- (append_assoc (a ++ mm) dd).
    apply substring_middle. }
  rewrite M. simpl bind. rewrite D. simpl bind. rewrite Y. reflexivity.
Qed.

(** X9. When the path has one backslash before the file name (none in the
    directory part), month, day and year are the first six characters of
    the file name. *)
Theorem statementDate_one_backslash (dir mm dd yy rest : string) :
  Str.mem "\" dir = false ->
  String.length mm = 2%nat ->
  String.length dd = 2%nat ->
  String.length yy = 2%nat ->
  Str.size (dir ++ "\" ++ mm ++ dd ++ yy ++ rest) < npos ->
  statementDate (dir ++ "\" ++ mm ++ dd ++ yy ++ rest)
  = Ok (mm, dd, "20" ++ yy).
Proof.
  intros Hdir Hmm Hdd Hyy Hsize.
  assert (Hfind : Str.find (dir ++ "\" ++ mm ++ dd ++ yy ++ rest) "\" 0
                  = Z.of_nat (String.length dir)).
  { unfold Str.find, Str.size.
    destruct (Z.gtb_spec 0 (Z.of_nat (String.length
                (dir ++ "\" ++ mm ++ dd ++ yy ++ rest)))) as [G | G]; [lia |].
    change (Z.to_nat 0) with 0%nat.
    change ("\" ++ mm ++ dd ++ yy ++ rest)
      with (String "\" (mm ++ dd ++ yy ++ rest)).
    rewrite index_first_char by exact Hdir. reflexivity. }
  unfold Str.size in Hsize. rewrite !length_append in Hsize.
  simpl String.length in Hsize. unfold npos, modulus, bits in Hsize.
  apply (statementDate_fields _ (Z.of_nat (String.length (dir ++ "\")))
           (dir ++ "\") mm dd yy rest); try assumption.
  - rewrite Hfind, length_append. unfold wrap, modulus, bits.
    rewrite Z.mod_small; simpl String.length; lia.
  - rewrite Hfind, length_append. unfold wrap, modulus, bits.
    rewrite Z.mod_small; simpl String.length; lia.
  - rewrite Hfind, length_append. unfold wrap, modulus, bits.
    rewrite Z.mod_small; simpl String.length; lia.
  - reflexivity.
  - rewrite append_assoc. reflexivity.
Qed.

Lemma statementDate_one_backslash_witness :
  statementDate ("statements" ++ "\" ++ "01" ++ "15" ++ "24" ++ ".pdf")
  = Ok ("01", "15", "20" ++ "24").
Proof.
  apply (statementDate_one_backslash "statements" "01" "15" "24" ".pdf");
    vm_compute; reflexivity.
Defined.

(** X10. When the path has no backslash at all, month, day and year are the
    first six characters of the path, directory part included. *)
Theorem statementDate_no_backslash (mm dd yy rest : string) :
  Str.mem "\" (mm ++ dd ++ yy ++ rest) = false ->
  String.length mm = 2%nat ->
  String.length dd = 2%nat ->
  String.length yy = 2%nat ->
  statementDate (mm ++ dd ++ yy ++ rest) = Ok (mm, dd, "20" ++ yy).
Proof.
  intros Hno Hmm Hdd Hyy.
  apply (statementDate_fields _ 0 "" mm dd yy rest); try assumption;
    try (rewrite (find_no_char "\" _ 0 Hno); reflexivity); reflexivity.
Qed.

Lemma statementDate_no_backslash_witness :
  statementDate ("./" ++ "st" ++ "at" ++ "ements/011524.pdf")
  = Ok ("./", "st", "20" ++ "at").
Proof.
  apply (statementDate_no_backslash "./" "st" "at" "ements/011524.pdf");
    vm_compute; reflexivity.
Defined.
(** Whether the date of a statement can be read depends on the position
    five characters after the first backslash. *)
Lemma statementDate_position (file : string) :
  Str.size file < npos - 5 ->
  (Str.size file < wrap (Str.find file "\" 0 + 5) ->
   statementDate file = Throw out_of_range) /\
  (wrap (Str.find file "\" 0 + 5) <= Str.size file ->
   exists mm dd yy, statementDate file = Ok (mm, dd, "20" ++ yy)).
Proof.
  intros Hsize.
  assert (Hpos : exists p,
    0 <= p <= Str.size file /\
    wrap (Str.find file "\" 0 + 1) = p /\
    wrap (Str.find file "\" 0 + 3) = p + 2 /\
    wrap (Str.find file "\" 0 + 5) = p + 4).
  { destruct (find_char_range "\" file 0) as [E | E].
    - exists 0. rewrite E. unfold Str.size.
      repeat split; try reflexivity; lia.
    - exists (Str.find file "\" 0 + 1).
      unfold wrap, npos, modulus, bits in *.
      rewrite !Z.mod_small by lia. repeat split; lia. }
  destruct Hpos as (p & Hp & H1 & H3 & H5).
  unfold statementDate. rewrite H1, H3, H5.
  assert (M : exists mm, Str.substr file p 2 = Ok mm).
  { unfold Str.substr. destruct (Z.gtb_spec p (Str.size file)); [lia | eauto]. }
  destruct M as [mm ->]. simpl bind.
  split.
  - intros Hshort.
    destruct (Z.gtb_spec (p + 2) (Str.size file)) as [G | G].
    + rewrite substr_past_end by lia. reflexivity.
    + unfold Str.substr at 1.
      destruct (Z.gtb_spec (p + 2) (Str.size file)); [lia |]. simpl bind.
      rewrite substr_past_end by lia. reflexivity.
  - intros Hlong.
    unfold Str.substr.
    destruct (Z.gtb_spec (p + 2) (Str.size file)); [lia |].
    destruct (Z.gtb_spec (p + 4) (Str.size file)); [lia |].
    simpl bind. do 3 eexists. reflexivity.
Qed.

Lemma find_first_backslash (front tail : string) :
  Str.mem "\" front = false ->
  Str.find (front ++ "\" ++ tail) "\" 0 = Z.of_nat (String.length front).
Proof.
  intros Hfront. unfold Str.find, Str.size.
  destruct (Z.gtb_spec 0 (Z.of_nat (String.length (front ++ "\" ++ tail))))
    as [G | G]; [lia |].
  change (Z.to_nat 0) with 0%nat.
  change ("\" ++ tail) with (String "\" tail).
  rewrite index_first_char by exact Hfront. reflexivity.
Qed.

(** X11. A path is too short when fewer than four characters follow its
    first backslash, or, for a path without a backslash, when it has fewer
    than four characters in all: exactly then [std::out_of_range] leaves
    [statementDate], and with it [processPdfs]. Here [front] holds no
    backslash, so the first path is one whose first backslash comes right
    after [front], and the second is a path without any. (The size bound
    holds for every [std::string].) *)
Theorem statementDate_short_path (front tail : string) :
  Str.mem "\" front = false ->
  Str.size (front ++ "\" ++ tail) < npos - 5 ->
  (statementDate (front ++ "\" ++ tail) = Throw out_of_range
   <-> (String.length tail < 4)%nat) /\
  (statementDate front = Throw out_of_range
   <-> (String.length front < 4)%nat).
Proof.
  intros Hfront Hsize.
  assert (Hlen : Str.size (front ++ "\" ++ tail)
                 = Z.of_nat (String.length front) + 1
                   + Z.of_nat (String.length tail)).
  { unfold Str.size. rewrite !length_append. simpl String.length. lia. }
  assert (Hsize' : Str.size front < npos - 5).
  { unfold Str.size in *. lia. }
  destruct (statementDate_position _ Hsize) as [Hshort Hlong].
  destruct (statementDate_position _ Hsize') as [Hshort' Hlong'].
  rewrite (find_first_backslash _ _ Hfront) in Hshort, Hlong.
  rewrite (find_no_char "\" front 0 Hfront) in Hshort', Hlong'.
  change (wrap (npos + 5)) with 4 in Hshort', Hlong'.
  assert (Hw : wrap (Z.of_nat (String.length front) + 5)
               = Z.of_nat (String.length front) + 5).
  { unfold wrap. apply Z.mod_small.
    unfold npos, modulus, bits in *. lia. }
  rewrite Hw, Hlen in Hshort, Hlong.
  unfold Str.size in Hshort', Hlong'.
  split; split.
  - intros E.
    destruct (Nat.lt_ge_cases (String.length tail) 4) as [Hlt | Hge];
      [exact Hlt |].
    destruct Hlong as (mm & dd & yy & Hok); [lia | congruence].
  - intros Hlt. apply Hshort. lia.
  - intros E.
    destruct (Nat.lt_ge_cases (String.length front) 4) as [Hlt | Hge];
      [exact Hlt |].
    destruct Hlong' as (mm & dd & yy & Hok); [lia | congruence].
  - intros Hlt. apply Hshort'. lia.
Qed.

Lemma statementDate_short_path_witness :
  (statementDate ("dir" ++ "\" ++ "011") = Throw out_of_range
   <-> (String.length "011" < 4)%nat) /\
  (statementDate "dir" = Throw out_of_range
   <-> (String.length "dir" < 4)%nat).
Proof.
  apply (statementDate_short_path "dir" "011"); vm_compute; reflexivity.
Defined.

Lemma stoi_year (yy : string) :
  (String.length yy <= 2)%nat ->
  exists y, Num.stoi ("20" ++ yy) = Ok y /\ 20 <= y <= 2099.
Proof.
  intros Hlen. unfold Num.stoi. simpl.
  destruct (Num.digits yy 20) as [[n v] r] eqn:E.
  assert (H20 : 0 <= 20) by lia.
  destruct (digits_bound _ _ _ _ _ H20 E) as [Hv Hn].
  assert (Hp1 : 1 <= 10 ^ Z.of_nat n) by (apply (pow10_le 0 n); lia).
  pose proof (pow10_le n 2 ltac:(lia)) as Hp2.
  change (10 ^ Z.of_nat 2) with 100 in Hp2.
  assert (Hrange : 20 <= v <= 2099) by nia.
  exists v. split; [| exact Hrange].
  unfold Num.INT_MIN, Num.INT_MAX.
  destruct (Z.leb_spec (- 2 ^ 31) v); [| lia].
  destruct (Z.leb_spec v (2 ^ 31 - 1)); [reflexivity | lia].
Qed.

(** X12. The year text of a statement always converts: [std::stoi(year)] at the
    calls of [generateTransaction] cannot throw, and the statement year is
    between 20 and 2099. Month and day text have at most two characters. *)
Theorem statement_year_converts (file mm dd year : string) :
  statementDate file = Ok (mm, dd, year) ->
  (exists y, Num.stoi year = Ok y /\ 20 <= y <= 2099) /\
  Str.size mm <= 2 /\ Str.size dd <= 2.
Proof.
  unfold statementDate. intros H.
  bind_inv H. bind_inv H. bind_inv H. injection H as <- <- <-.
  apply substr_count in Hstep, Hstep0, Hstep1; try lia.
  split; [| split; assumption].
  apply stoi_year. unfold Str.size in Hstep1. lia.
Qed.

Lemma statement_year_converts_witness :
  (exists y, Num.stoi "20em" = Ok y /\ 20 <= y <= 2099) /\
  Str.size "st" <= 2 /\ Str.size "at" <= 2.
Proof.
  apply (statement_year_converts "C:\statements\011524.pdf" "st" "at" "20em").
  vm_compute. reflexivity.
Defined.
(** ** The lines of a page *)

Lemma getlines_cons (cur : string) (c : ascii) (text : string) :
  getlines cur (String c text)
  = if Ascii.eqb c LF then cur :: getlines "" text
    else getlines (cur ++ String c "") text.
Proof. reflexivity. Qed.

Lemma getlines_newline (cur text : string) :
  getlines cur (String LF text) = cur :: getlines "" text.
Proof. reflexivity. Qed.

Lemma mem_cons (c d : ascii) (s : string) :
  Str.mem c (String d s) = (Ascii.eqb c d || Str.mem c s)%bool.
Proof. reflexivity. Qed.

Lemma getlines_app (l cur text : string) :
  oneLine l -> getlines cur (l ++ text) = getlines (cur ++ l) text.
Proof.
  unfold oneLine. revert cur. induction l as [| c l IH]; intros cur H.
  - rewrite append_empty. reflexivity.
  - rewrite mem_cons in H. apply orb_false_iff in H as [Hc Hl].
    change (String c l ++ text) with (String c (l ++ text)).
    rewrite getlines_cons, Ascii.eqb_sym, Hc, (IH _ Hl), append_assoc.
    reflexivity.
Qed.

Lemma getlines_newline_ended (ls : list string) (cur : string) :
  Forall oneLine ls ->
  getlines cur (pageOf ls ++ String LF "")
  = match ls with
    | [] => [cur]
    | x :: xs => (cur ++ x) :: xs
    end.
Proof.
  revert cur. induction ls as [| x xs IH]; intros cur H.
  - reflexivity.
  - apply Forall_cons_iff in H as [Hx Hxs].
    destruct xs as [| y ys].
    + unfold pageOf. simpl String.concat. rewrite getlines_app by exact Hx.
      reflexivity.
    + change (pageOf (x :: y :: ys))
        with (x ++ String LF "" ++ pageOf (y :: ys)).
      rewrite !append_assoc, getlines_app by exact Hx.
      change (String LF "" ++ pageOf (y :: ys) ++ String LF "")
        with (String LF (pageOf (y :: ys) ++ String LF "")).
      rewrite getlines_newline. f_equal.
      apply (IH "" Hxs).
Qed.

Lemma getlines_last_line (ls : list string) (final cur : string) :
  Forall oneLine ls -> oneLine final -> final <> "" ->
  getlines cur (pageOf (ls ++ [final]))
  = match ls with
    | [] => [cur ++ final]
    | x :: xs => (cur ++ x) :: (xs ++ [final])%list
    end.
Proof.
  intros Hls Hf Hne. revert cur. induction ls as [| x xs IH]; intros cur.
  - unfold pageOf. simpl String.concat.
    rewrite <- (append_empty final) at 1. rewrite getlines_app by exact Hf.
    unfold getlines. destruct (String.eqb_spec (cur ++ final) "") as [E | E];
      [| reflexivity].
    destruct cur; simpl in E; [congruence | discriminate].
  - apply Forall_cons_iff in Hls as [Hx Hxs].
    assert (Hcons : pageOf ((x :: xs) ++ [final])
                    = x ++ String LF "" ++ pageOf (xs ++ [final])).
    { unfold pageOf. destruct xs; reflexivity. }
    rewrite Hcons, getlines_app by exact Hx.
    change (String LF "" ++ pageOf (xs ++ [final]))
      with (String LF (pageOf (xs ++ [final]))).
    rewrite getlines_newline. f_equal.
    rewrite (IH Hxs ""). destruct xs; reflexivity.
Qed.

(** X13. [std::getline] gives back the lines a page text was made of: lines
    without a newline in them, joined by newlines, come out as they went in,
    whether the text ends with a newline or, its last line not being empty,
    without one. *)
Theorem getlines_pageOf (ls : list string) :
  Forall oneLine ls ->
  (ls <> [] -> getlines "" (pageOf ls ++ String LF "") = ls) /\
  (last ls "." <> "" -> getlines "" (pageOf ls) = ls).
Proof.
  intros H. split.
  - intros Hne. rewrite getlines_newline_ended by exact H.
    destruct ls; [congruence | reflexivity].
  - intros Hlast. destruct ls as [| x xs]; [reflexivity |].
    destruct (@exists_last _ (x :: xs)) as (front & final & E);
      [discriminate |].
    rewrite E in *. clear E.
    rewrite last_last in Hlast.
    apply Forall_app in H as [Hfront Hfinal].
    apply Forall_cons_iff in Hfinal as [Hfinal _].
    rewrite getlines_last_line by assumption.
    destruct front; reflexivity.
Qed.

Lemma getlines_pageOf_witness :
  (["Transactions"; ""; "1234 01/15"] <> [] ->
   getlines "" (pageOf ["Transactions"; ""; "1234 01/15"] ++ String LF "")
   = ["Transactions"; ""; "1234 01/15"]) /\
  (last ["Transactions"; ""; "1234 01/15"] "." <> "" ->
   getlines "" (pageOf ["Transactions"; ""; "1234 01/15"])
   = ["Transactions"; ""; "1234 01/15"]).
Proof.
  apply (getlines_pageOf ["Transactions"; ""; "1234 01/15"]).
  repeat constructor.
Defined.
(** ** The scan of a statement *)

Section Scan.

Variable C : Constants.
Variable year : string.
Variable isJanuaryStatement : bool.

Lemma processLines_app (l1 l2 : list string) (st : State) :
  processLines C year isJanuaryStatement st (l1 ++ l2)
  = (st' <- processLines C year isJanuaryStatement st l1 ;;
     processLines C year isJanuaryStatement st' l2).
Proof.
  revert st. induction l1 as [| line l1 IH]; intros st; simpl; [reflexivity |].
  destruct (processLine C year isJanuaryStatement st line) as [st1 | e]; simpl;
    [apply IH | reflexivity].
Qed.

(** X14. The pages of a statement are scanned as one stream of lines: when every
    page loads, the state after the pages is the state after the lines of
    all of them in a row. A page that does not load stops the run with the
    repository's [Exception], once the lines of the pages before it have
    been scanned without error. *)
Theorem processPages_one_line_stream (texts : list string)
    (more : list (option string)) (st : State) :
  processPages C year isJanuaryStatement st (map Some texts)
  = processLines C year isJanuaryStatement st (flat_map (getlines "") texts) /\
  processPages C year isJanuaryStatement st (map Some texts ++ None :: more)
  = (st' <- processLines C year isJanuaryStatement st
              (flat_map (getlines "") texts) ;;
     Throw (Exception "Could not load page with poppler")).
Proof.
  revert st. induction texts as [| text texts IH]; intros st.
  - split; reflexivity.
  - simpl. rewrite !processLines_app.
    destruct (processLines C year isJanuaryStatement st (getlines "" text))
      as [st1 | e]; simpl; [apply IH | split; reflexivity].
Qed.

(** What one line can do: record the last four, count the title, add a
    record, log a line, or nothing. *)
Lemma processLine_cases (st st' : State) (line : string) :
  processLine C year isJanuaryStatement st line = Ok st' ->
  (lastFourFound st = false /\ exists v, st' = foundLastFour st v) \/
  (transactionTitleCount st < 1 /\ (st' = st \/ st' = countTitle st)) \/
  (1 <= transactionTitleCount st /\
   (st' = st \/ (exists t, st' = pushTransaction st t)
    \/ exists s, st' = writeSkippedLine st s)).
Proof.
  unfold processLine. intros H.
  destruct (negb (lastFourFound st) && lastFourPattern C line)%bool eqn:Emark.
  { left. apply andb_true_iff in Emark as [Hf _].
    apply negb_true_iff in Hf. split; [exact Hf |].
    bind_inv H. injection H as <-. eauto. }
  right.
  destruct (Z.ltb_spec (transactionTitleCount st) 1) as [Hc | Hc].
  { left. split; [exact Hc |]. injection H as <-.
    destruct (transactionTitlePattern C line); auto. }
  right. split; [exact Hc |].
  assert (Hsave : forall o i,
    saveTransaction C year isJanuaryStatement st line o i = Ok st' ->
    st' = st \/ (exists t, st' = pushTransaction st t)
    \/ exists s, st' = writeSkippedLine st s).
  { intros o i Hs. apply saveTransaction_ok in Hs as (t & -> & _). eauto. }
  assert (Hskip : skipLine st line = Ok st' ->
    st' = st \/ (exists t, st' = pushTransaction st t)
    \/ exists s, st' = writeSkippedLine st s).
  { intros Hs. apply skipLine_ok in Hs as (s & ->). eauto. }
  destruct (transactionPattern C line).
  { destruct (negb (transactionSkip C line)); eauto. }
  destruct (transactionPatternInterest C line).
  { destruct (negb (transactionSkip C line)); eauto. }
  destruct (transactionPatternOld C line).
  { destruct (negb (transactionSkip C line)); eauto. }
  destruct (transactionPatternSkippedRelevant C line); [eauto |].
  injection H as <-. auto.
Qed.

(** X15. The phases only move forward: the title counter of a statement is 0 or
    1 and never goes back, and a last four that has been found stays
    found. *)
Theorem phases_move_forward (lines : list string) (st st' : State) :
  0 <= transactionTitleCount st <= 1 ->
  processLines C year isJanuaryStatement st lines = Ok st' ->
  transactionTitleCount st <= transactionTitleCount st' <= 1 /\
  (lastFourFound st = true -> lastFourFound st' = true).
Proof.
  revert st. induction lines as [| line rest IH]; simpl; intros st Hc H.
  - injection H as <-. split; [lia | auto].
  - bind_inv H.
    assert (Hstep1 : transactionTitleCount st <= transactionTitleCount a <= 1 /\
                     (lastFourFound st = true -> lastFourFound a = true)).
    { apply processLine_cases in Hstep
        as [[_ (v & ->)] | [[Hlt [-> | ->]] | [_ [-> | [(t & ->) | (s & ->)]]]]];
        simpl; try (split; [lia | auto]).
      assert (transactionTitleCount st = 0) as -> by lia.
      change (wrap (0 + 1)) with 1. split; [lia | auto]. }
    destruct Hstep1 as [Hc1 Hf1].
    destruct (IH a ltac:(lia) H) as [Hc2 Hf2].
    split; [lia | auto].
Qed.

(** X16. Before the section title nothing is a transaction: while no line matches
    the title pattern, the scan cannot fail, adds no record and writes
    nothing to the skipped-lines stream, whatever the lines look like. *)
Theorem lines_before_title_ignored (lines : list string) (st : State) :
  transactionTitleCount st = 0 ->
  Forall (fun line => transactionTitlePattern C line = false) lines ->
  exists st',
    processLines C year isJanuaryStatement st lines = Ok st' /\
    transactions st' = transactions st /\
    skippedLines st' = skippedLines st /\
    transactionTitleCount st' = 0.
Proof.
  revert st. induction lines as [| line rest IH]; intros st Hc Hno.
  - exists st. simpl. auto.
  - apply Forall_cons_iff in Hno as [Hline Hrest].
    assert (Hstep : exists st1,
      processLine C year isJanuaryStatement st line = Ok st1 /\
      transactions st1 = transactions st /\
      skippedLines st1 = skippedLines st /\
      transactionTitleCount st1 = 0).
    { unfold processLine.
      destruct (negb (lastFourFound st) && lastFourPattern C line)%bool.
      - destruct (lastFour_substr_ok line) as [v ->]. simpl bind.
        exists (foundLastFour st v). simpl. auto.
      - rewrite Hc, Hline. simpl. exists st. auto. }
    destruct Hstep as (st1 & E1 & T1 & S1 & C1).
    destruct (IH st1 C1 Hrest) as (st' & E' & T' & S' & C').
    exists st'. simpl. rewrite E1. simpl bind.
    repeat split; congruence.
Qed.

End Scan.

Lemma phases_move_forward_witness :
  transactionTitleCount (startFile [] (mkOfstream true ""))
  <= transactionTitleCount
       (mkState [mkTransaction (mkDate 2024 1 15) "REF001234" (Qmake 4567 100)
                   "STORE PURCHASE" ""]
          (mkOfstream true "") 1 false "") <= 1 /\
  (lastFourFound (startFile [] (mkOfstream true "")) = true ->
   lastFourFound
     (mkState [mkTransaction (mkDate 2024 1 15) "REF001234" (Qmake 4567 100)
                 "STORE PURCHASE" ""]
        (mkOfstream true "") 1 false "") = true).
Proof.
  apply (phases_move_forward Sample.constants "2024" false
           [Sample.titleLine; Sample.purchaseLine]).
  - simpl. lia.
  - vm_compute. reflexivity.
Defined.

Lemma lines_before_title_ignored_witness :
  exists st',
    processLines Sample.constants "2024" false
      (startFile [] (mkOfstream true ""))
      [Sample.purchaseLine; Sample.lastFourLine; Sample.paymentLine] = Ok st' /\
    transactions st' = transactions (startFile [] (mkOfstream true "")) /\
    skippedLines st' = skippedLines (startFile [] (mkOfstream true "")) /\
    transactionTitleCount st' = 0.
Proof.
  apply (lines_before_title_ignored Sample.constants "2024" false
           [Sample.purchaseLine; Sample.lastFourLine; Sample.paymentLine]).
  - reflexivity.
  - repeat constructor.
Defined.
(** ** The last four of a statement *)

Lemma last_of_none (c : ascii) (s : string) :
  Str.mem c s = false -> Str.last_of c s = None.
Proof.
  induction s as [| d s IH]; [reflexivity |].
  rewrite mem_cons. intros H. apply orb_false_iff in H as [Hd Hs].
  cbn [Str.last_of]. rewrite (IH Hs), Ascii.eqb_sym, Hd. reflexivity.
Qed.

Lemma last_of_app (c : ascii) (a b : string) :
  Str.last_of c (a ++ b)
  = match Str.last_of c b with
    | Some j => Some (String.length a + j)%nat
    | None => Str.last_of c a
    end.
Proof.
  induction a as [| d a IH].
  - simpl. destruct (Str.last_of c b); reflexivity.
  - change (String d a ++ b) with (String d (a ++ b)).
    cbn [Str.last_of String.length]. rewrite IH.
    destruct (Str.last_of c b); reflexivity.
Qed.

(** X17. While the last four has not been found, a line that matches the
    last-four pattern gives it: the (at most) four characters that follow
    the last space of the line. Nothing else in the state changes; the line
    is not looked at again, not even as a title. (The size bound holds for
    every [std::string].) *)
Theorem lastFour_after_last_space (C : Constants) (year : string)
    (isJanuaryStatement : bool) (st : State) (before tail : string) :
  lastFourFound st = false ->
  lastFourPattern C (before ++ " " ++ tail) = true ->
  Str.mem " " tail = false ->
  Str.size (before ++ " " ++ tail) < npos ->
  processLine C year isJanuaryStatement st (before ++ " " ++ tail)
  = Ok (mkState (transactions st) (skippedLines st)
          (transactionTitleCount st) true (String.substring 0 4 tail)).
Proof.
  intros Hf Hpat Htail Hsize.
  unfold processLine. rewrite Hf, Hpat. simpl andb. cbv iota.
  unfold Str.size in Hsize. rewrite !length_append in Hsize.
  simpl String.length in Hsize. unfold npos, modulus, bits in Hsize.
  assert (Hr : Str.rfind (before ++ " " ++ tail) " "
               = Z.of_nat (String.length before)).
  { unfold Str.rfind. rewrite last_of_app.
    change (" " ++ tail) with (String " " tail).
    cbn [Str.last_of]. rewrite (last_of_none _ _ Htail).
    rewrite Ascii.eqb_refl. simpl Str.of_index. f_equal. lia. }
  rewrite Hr. unfold wrap, modulus, bits. rewrite Z.mod_small by lia.
  unfold Str.substr, Str.size. rewrite !length_append. simpl String.length.
  destruct (Z.gtb_spec (Z.of_nat (String.length before) + 1)
              (Z.of_nat (String.length before + (1 + String.length tail))))
    as [G | G]; [lia |].
  simpl bind. unfold foundLastFour. do 2 f_equal.
  replace (Z.to_nat (Z.of_nat (String.length before) + 1))
    with (String.length (before ++ " "))
    by (rewrite length_append; simpl String.length; lia).
  replace (before ++ String " " tail) with ((before ++ " ") ++ tail)
    by (rewrite append_assoc; reflexivity).
  rewrite substring_skip.
  match goal with
  | |- context [Z.min 4 ?x] =>
      destruct (Z.min_spec 4 x) as [[_ ->] | [Hlt ->]]; [reflexivity |]
  end.
  rewrite !substring_all by lia. reflexivity.
Qed.

Lemma lastFour_after_last_space_witness :
  processLine Sample.constants "2024" false
    (startFile [] (mkOfstream true "")) ("Account Number Ending in" ++ " " ++ "1234")
  = Ok (mkState [] (mkOfstream true "") 0 true (String.substring 0 4 "1234")).
Proof.
  apply (lastFour_after_last_space Sample.constants "2024" false
           (startFile [] (mkOfstream true "")) "Account Number Ending in" "1234");
    vm_compute; reflexivity.
Defined.

(** ** The whole run *)




Section Run.

Variable C : Constants.
Variable poppler : string -> option (list (option string)).






End Run.

(** ** gatherPdfFiles *)

Lemma gatherEntry_fold (C : Constants) (directory : list entry)
    (files : list string) (content : string) :
  fold_left (gatherEntry C) directory (files, mkOfstream true content)
  = ((files ++ map entryPath
                 (filter (fun e => pdfFilePattern C (entryFileName e)) directory))%list,
     mkOfstream true (content ++ skippedNames C directory)).
Proof.
  revert files content. induction directory as [| e rest IH]; intros files content.
  - simpl. rewrite app_nil_r, append_empty. reflexivity.
  - simpl. destruct (pdfFilePattern C (entryFileName e)).
    + rewrite IH. simpl. rewrite <- app_assoc. reflexivity.
    + rewrite !put_good, IH, !append_assoc. reflexivity.
Qed.

(** X19. Every entry of the directory goes one way or the other, in the order of
    the directory: the paths of those whose file name matches the PDF
    pattern are added to the list of files, the names of the others are
    written one per line to the skipped-files stream, between the banner
    and an empty line. *)
Theorem gatherPdfFiles_partition (C : Constants) (path skippedFilePath : string)
    (directory : list entry) (pdfFiles : list string) (content : string) :
  exists skippedFiles,
    gatherPdfFiles C true path skippedFilePath directory pdfFiles
      (mkOfstream true content)
    = Ok ((pdfFiles ++ map entryPath
                         (filter (fun e => pdfFilePattern C (entryFileName e))
                                 directory))%list,
          skippedFiles) /\
    written skippedFiles
    = content ++ ("-- SKIPPED FILES --" ++ String LF "")
      ++ skippedNames C directory ++ String LF "".
Proof.
  unfold gatherPdfFiles. cbn [negb good]. rewrite put_good, gatherEntry_fold.
  rewrite put_good. eexists. split; [reflexivity |].
  cbn [close written]. rewrite !append_assoc. reflexivity.
Qed.

(** ** What every record carries *)

(** X20. Every record carries the last four it was given, and the record of an
    interest charge keeps the reference number it had: none is read from
    the line. *)
Theorem record_lastFour_and_interest_reference (C : Constants)
    (t : Transaction) (line : string) (year : Z) (isJanuaryStatement : bool)
    (lastFour : string) (isOldFormat isInterestCharge : bool)
    (r : Transaction) :
  generateTransaction C (Some t) line year isJanuaryStatement lastFour
    isOldFormat isInterestCharge = Ok r ->
  lastFourDigits r = lastFour /\
  (isInterestCharge = true -> referenceNumber r = referenceNumber t).
Proof.
  intros H.
  apply generateTransaction_trace in H
    as (month & day & rest & _ & _ & _ & Hl & Href).
  split; [exact Hl |]. intros ->. exact Href.
Qed.

Lemma record_lastFour_and_interest_reference_witness :
  lastFourDigits
    (mkTransaction (mkDate 2024 1 15) "" (Qmake 617 50)
       "INTEREST CHARGE ON PURCHASES" "1234") = "1234" /\
  (true = true ->
   referenceNumber
     (mkTransaction (mkDate 2024 1 15) "" (Qmake 617 50)
        "INTEREST CHARGE ON PURCHASES" "1234")
   = referenceNumber Transaction_new).
Proof.
  apply (record_lastFour_and_interest_reference Sample.constants
           Transaction_new "01/15 01/16 INTEREST CHARGE ON PURCHASES 12.34"
           2024 false "1234" false true).
  vm_compute. reflexivity.
Defined.
